(** * Course catalogue API over a key-value store: index consistency

    A shallow embedding of the Express handlers of [api/index.js] (the
    index-based version) and of the handlers of the older, scan-based
    version of the same file, together with the part of the
    JavaScript value semantics and of the Redis command semantics that the
    handlers rely on. *)

From Stdlib Require Import ZArith Ascii String.
From stdpp Require Import gmap strings list fin_maps pretty.

Set Warnings "-register-all".

Local Open Scope string_scope.
Local Open Scope Z_scope.

(** ** JavaScript values as they travel through the handlers *)

Module Js.

(** A value produced by [JSON.parse]: the request body, its fields, and every
    value read back from the store.  [JNum z] is the number whose value is
    the integer [z], for [z] an integer that a double holds; fractions and
    the infinities are outside this model.  A string is the sequence of the
    bytes of its UTF-8 encoding.  A variable that may be [undefined] has
    type [option json], with [None] for [undefined]. *)
Inductive json : Type :=
  | JNull
  | JBool (b : bool)
  | JNum (z : Z)
  | JStr (s : string)
  | JArr (l : list json)
  | JObj (o : gmap string json).

(** The result of [parseInt]: an integer-valued double, [NaN], or an
    infinity. *)
Inductive number : Type :=
  | Num (z : Z)
  | NaN
  | Infinity (negative : bool).

(** What a handler may throw. *)
Inductive exn : Type :=
  | TypeError.

(** [ToBoolean]: [undefined], [null], [false], [0] and the empty string are
    falsy, everything else (arrays and objects included) is truthy. *)
Definition truthy (v : option json) : bool :=
  match v with
  | None => false
  | Some JNull => false
  | Some (JBool b) => b
  | Some (JNum z) => negb (z =? 0)
  | Some (JStr s) => negb (String.eqb s "")
  | Some (JArr _) => true
  | Some (JObj _) => true
  end.

(** *** Doubles *)

(** The double nearest to a natural number, ties going to the even
    significand; [None] when it is beyond the largest double. *)
Definition round_nat (n : Z) : option Z :=
  if n <? 2 ^ 53 then Some n
  else
    let e := Z.log2 n - 52 in
    let q := n / 2 ^ e in
    let r := n mod 2 ^ e in
    let half := 2 ^ (e - 1) in
    let q' := if (half <? r) || ((r =? half) && Z.odd q) then q + 1 else q in
    let v := q' * 2 ^ e in
    if v <? 2 ^ 1024 then Some v else None.

Definition to_double (z : Z) : number :=
  match round_nat (Z.abs z) with
  | Some v => Num (Z.sgn z * v)
  | None => Infinity (z <? 0)
  end.

Definition rounds_to (v x : Z) : bool :=
  match round_nat x with
  | Some y => y =? v
  | None => false
  end.

(** The decimal with the fewest significant digits that rounds to the double
    [v], and among those the one nearest to [v]; the search tries [k]
    significant digits, then [k + 1], and so on. *)
Fixpoint shortest_from (fuel : nat) (k : Z) (v : Z) (n : Z) : Z :=
  match fuel with
  | O => v
  | S fuel' =>
      if n <=? k then v
      else
        let p := 10 ^ (n - k) in
        let lo := v / p * p in
        let hi := lo + p in
        match rounds_to v lo, rounds_to v hi with
        | true, true =>
            if v - lo <? hi - v then lo
            else if hi - v <? v - lo then hi
            else if Z.even (v / p) then lo else hi
        | true, false => lo
        | false, true => hi
        | false, false => shortest_from fuel' (k + 1) v n
        end
  end.

Definition digit_count (n : Z) : Z := Z.of_nat (String.length (pretty n)).

Fixpoint drop_zeros (rev_digits : list ascii) : list ascii :=
  match rev_digits with
  | c :: rest => if Ascii.eqb c "0" then drop_zeros rest else rev_digits
  | [] => []
  end.

Definition significant (digits : string) : string :=
  string_of_list_ascii (rev (drop_zeros (rev (list_ascii_of_string digits)))).

(** [Number::toString] of a positive integer-valued double: the digits in
    full below [10^21], and from there on the exponent form. *)
Definition positive_to_string (v : Z) : string :=
  if v <? 2 ^ 53 then pretty v
  else
    let digits := pretty (shortest_from 17 1 v (digit_count v)) in
    let n := Z.of_nat (String.length digits) in
    if n <=? 21 then digits
    else
      match significant digits with
      | String c EmptyString => String c ("e+" +:+ pretty (n - 1))
      | String c rest => String c ("." +:+ rest +:+ "e+" +:+ pretty (n - 1))
      | EmptyString => EmptyString
      end.

Definition number_to_string (z : Z) : string :=
  match to_double z with
  | Num v =>
      if v =? 0 then "0"
      else if v <? 0 then "-" +:+ positive_to_string (- v)
      else positive_to_string v
  | Infinity negative => if negative then "-Infinity" else "Infinity"
  | NaN => "NaN"
  end.

(** *** Conversion to a string *)

(** [ToString], as applied by a template literal and by [parseInt]; [None]
    when it throws a [TypeError].  An object prints through the [toString] it
    inherits unless it has a [toString] property of its own: no value read
    from JSON can be called, and the inherited [valueOf] gives the object
    back, so the conversion then throws.  An array joins its elements with
    commas, [null] elements printing as nothing, and throws when one of them
    does. *)
Fixpoint to_string (v : json) : option string :=
  match v with
  | JNull => Some "null"
  | JBool b => Some (if b then "true" else "false")
  | JNum z => Some (number_to_string z)
  | JStr s => Some s
  | JArr l =>
      String.concat "," <$>
        mapM (fun e => match e with JNull => Some "" | _ => to_string e end) l
  | JObj o =>
      match o !! "toString" with
      | Some _ => None
      | None => Some "[object Object]"
      end
  end.

Definition to_string_opt (v : option json) : option string :=
  match v with
  | None => Some "undefined"
  | Some x => to_string x
  end.

(** *** [parseInt] with no radix argument

    The white space skipped is the [WhiteSpace] and [LineTerminator] of the
    language, in their UTF-8 bytes.  The digits are read in full and their
    value is rounded to the nearest double, as V8 does. *)

Definition byte (c : ascii) : Z := Z.of_nat (nat_of_ascii c).

(** TAB, LF, VT, FF, CR, SP *)
Definition is_ws (c : ascii) : bool :=
  let n := byte c in
  (n =? 9) || (n =? 10) || (n =? 11) || (n =? 12) || (n =? 13) || (n =? 32).

(** U+00A0 *)
Definition is_ws2 (c1 c2 : ascii) : bool :=
  (byte c1 =? 194) && (byte c2 =? 160).

(** U+1680, U+2000 to U+200A, U+2028, U+2029, U+202F, U+205F, U+3000,
    U+FEFF *)
Definition is_ws3 (c1 c2 c3 : ascii) : bool :=
  let a := byte c1 in
  let b := byte c2 in
  let c := byte c3 in
  ((a =? 225) && (b =? 154) && (c =? 128))
  || ((a =? 226) && (b =? 128)
      && (((128 <=? c) && (c <=? 138)) || (c =? 168) || (c =? 169) || (c =? 175)))
  || ((a =? 226) && (b =? 129) && (c =? 159))
  || ((a =? 227) && (b =? 128) && (c =? 128))
  || ((a =? 239) && (b =? 187) && (c =? 191)).

Fixpoint skip_ws (s : string) : string :=
  match s with
  | EmptyString => EmptyString
  | String c1 r1 =>
      if is_ws c1 then skip_ws r1
      else if byte c1 <? 128 then s
      else
        match r1 with
        | String c2 r2 =>
            if is_ws2 c1 c2 then skip_ws r2
            else
              match r2 with
              | String c3 r3 => if is_ws3 c1 c2 c3 then skip_ws r3 else s
              | EmptyString => s
              end
        | EmptyString => s
        end
  end.

Definition digit_val (c : ascii) : option Z :=
  let n := byte c in
  if (48 <=? n) && (n <=? 57) then Some (n - 48)
  else if (97 <=? n) && (n <=? 122) then Some (n - 87)
  else if (65 <=? n) && (n <=? 90) then Some (n - 55)
  else None.

(** The longest prefix of radix-[R] digits; [acc] is [None] until the first
    digit has been read. *)
Fixpoint digits (R : Z) (s : string) (acc : option Z) : option Z :=
  match s with
  | EmptyString => acc
  | String c rest =>
      match digit_val c with
      | Some d =>
          if d <? R then digits R rest (Some (default 0 acc * R + d)) else acc
      | None => acc
      end
  end.

Definition strip_sign (s : string) : Z * string :=
  match s with
  | String "-" rest => (-1, rest)
  | String "+" rest => (1, rest)
  | _ => (1, s)
  end.

Definition strip_radix (s : string) : Z * string :=
  match s with
  | String "0" (String "x" rest) => (16, rest)
  | String "0" (String "X" rest) => (16, rest)
  | _ => (10, s)
  end.

(** The double for the digits read and the sign before them. *)
Definition signed_double (sign n : Z) : number :=
  match round_nat n with
  | Some v => Num (sign * v)
  | None => Infinity (sign <? 0)
  end.

Definition parseInt_string (s : string) : number :=
  let '(sign, s1) := strip_sign (skip_ws s) in
  let '(R, s2) := strip_radix s1 in
  match digits R s2 None with
  | None => NaN
  | Some n => signed_double sign n
  end.

(** [parseInt(v)]; [None] when the conversion of [v] to a string throws. *)
Definition parseInt (v : option json) : option number :=
  parseInt_string <$> to_string_opt v.

(** [JSON.stringify] of a number: [NaN] and the infinities are written as
    [null]. *)
Definition json_of_number (n : number) : json :=
  match n with
  | Num z => JNum z
  | NaN => JNull
  | Infinity _ => JNull
  end.

(** *** Objects *)

Definition indexed (l : list json) : gmap string json :=
  list_to_map (imap (fun i v => (pretty i, v)) l).

(** The characters of a string of ASCII characters.  No handler spreads a
    string: a request body is an object or an array, and the values the
    handlers store are objects. *)
Definition chars (s : string) : list json :=
  map (fun c => JStr (String c EmptyString)) (list_ascii_of_string s).

(** The own enumerable properties of a value: what destructuring reads the
    request fields from, and what an object spread copies. *)
Definition own_props (v : json) : gmap string json :=
  match v with
  | JObj o => o
  | JArr l => indexed l
  | JStr s => indexed (chars s)
  | _ => ∅
  end.

(** [{ ...a, ...b }]: the properties of [a], overwritten by those of [b]. *)
Definition spread (a b : json) : gmap string json :=
  own_props b ∪ own_props a.

(** An object literal as [JSON.stringify] writes it: a property whose value
    is [undefined] is left out. *)
Definition object_literal (fields : list (string * option json)) : gmap string json :=
  list_to_map (omap (fun '(k, v) => pair k <$> v) fields).

(** [a || b] *)
Definition or_else (a : option json) (b : json) : option json :=
  if truthy a then a else Some b.

End Js.

Import Js.

(** ** The key-value store and its commands *)

Module Kv.

(** The two parts of the database the handlers touch: the JSON values held
    under string keys (the Record Store) and the members of the one Redis set
    the program uses (the Index Set, stored under [index:asignaturas]).  The
    set lives in the same key space as the values; a record key always begins
    with [asignatura:], so it never names the set. *)
Record db : Type := Db {
  records : gmap string json;
  index : gset string
}.

Definition empty_db : db := Db ∅ ∅.

(** The commands queued on a [kv.multi()] pipeline. *)
Inductive txop : Type :=
  | TxSet (key : string) (value : json)
  | TxDel (key : string)
  | TxSadd (set_key member : string)
  | TxSrem (set_key member : string).

(** The commands that reach the store, in the order they are issued. *)
Inductive cmd : Type :=
  | CExists (key : string)
  | CGet (key : string)
  | CSet (key : string) (value : json)
  | CMget (keys : list string)
  | CSmembers (set_key : string)
  | CScan (pattern : string)
  | CExec (ops : list txop).

Definition is_write (c : cmd) : bool :=
  match c with
  | CSet _ _ | CExec _ => true
  | _ => false
  end.

Definition reads_records (c : cmd) : bool :=
  match c with
  | CExists _ | CGet _ | CMget _ | CScan _ => true
  | _ => false
  end.

(** A handler step: it reads and updates the database and logs the commands
    it sent. *)
Definition KV (A : Type) : Type := db → A * db * list cmd.

Definition kv_ret {A} (a : A) : KV A := fun d => (a, d, []).

Definition kv_bind {A B} (m : KV A) (f : A → KV B) : KV B :=
  fun d =>
    let '(a, d1, t1) := m d in
    let '(b, d2, t2) := f a d1 in
    (b, d2, (t1 ++ t2)%list).

#[global] Instance kv_mret : MRet KV := @kv_ret.
#[global] Instance kv_mbind : MBind KV := fun A B f m => kv_bind m f.

Definition count (b : bool) : json := JNum (if b then 1 else 0).

Definition lookup_or_null (d : db) (key : string) : json :=
  default JNull (records d !! key).

Definition exists_ (key : string) : KV Z :=
  fun d => (if bool_decide (is_Some (records d !! key)) then 1 else 0, d, [CExists key]).

Definition get (key : string) : KV json :=
  fun d => (lookup_or_null d key, d, [CGet key]).

Definition set (key : string) (value : json) : KV unit :=
  fun d => (tt, Db (<[key := value]> (records d)) (index d), [CSet key value]).

Definition mget (keys : list string) : KV (list json) :=
  fun d => (map (lookup_or_null d) keys, d, [CMget keys]).

(** [SMEMBERS] and [SCAN] answer in an order of the server's choosing: the
    handlers below take the answer as an argument, and these two predicates
    say which answers the store can give. *)
Definition smembers_reply (d : db) (keys : list string) : Prop :=
  NoDup keys ∧ ∀ k, k ∈ keys ↔ k ∈ index d.

Definition smembers (set_key : string) (reply : list string) : KV (list string) :=
  fun d => (reply, d, [CSmembers set_key]).

(** One queued command run against the database, with its reply.  The set
    commands name the key of the set they act on; the database holds the one
    set, and the handlers name no other. *)
Definition run_op (op : txop) (d : db) : json * db :=
  match op with
  | TxSet key value => (JStr "OK", Db (<[key := value]> (records d)) (index d))
  | TxDel key =>
      (count (bool_decide (is_Some (records d !! key))),
       Db (delete key (records d)) (index d))
  | TxSadd _ member =>
      (count (bool_decide (member ∉ index d)),
       Db (records d) ({[member]} ∪ index d))
  | TxSrem _ member =>
      (count (bool_decide (member ∈ index d)),
       Db (records d) (index d ∖ {[member]}))
  end.

Fixpoint run_ops (ops : list txop) (d : db) : list json * db :=
  match ops with
  | [] => ([], d)
  | op :: rest =>
      let '(r, d1) := run_op op d in
      let '(rs, d2) := run_ops rest d1 in
      (r :: rs, d2)
  end.

(** [multi.exec()]: the queued commands run as one unit, in order. *)
Definition exec (ops : list txop) : KV (list json) :=
  fun d => let '(rs, d') := run_ops ops d in (rs, d', [CExec ops]).

(** *** Key scans *)

(** Every key of the database: the record keys and, while the set has a
    member, the key [set_key] the set is stored under (Redis drops a set when
    its last member goes). *)
Definition keyspace (set_key : string) (d : db) : gset string :=
  dom (records d) ∪ (if decide (index d = ∅) then ∅ else {[set_key]}).

(** Glob matching of a key against a pattern in which [*], standing for any
    run of characters, is the only wildcard (the pattern the scan-based
    handler uses has none of the others). *)
Fixpoint glob (pattern s : string) : bool :=
  match pattern with
  | EmptyString => match s with EmptyString => true | _ => false end
  | String c rest =>
      if Ascii.eqb c "*"
      then
        (fix star (t : string) : bool :=
           glob rest t ||
           match t with
           | EmptyString => false
           | String _ t' => star t'
           end) s
      else
        match s with
        | EmptyString => false
        | String c' s' => Ascii.eqb c c' && glob rest s'
        end
  end.

(** A pattern with no wildcard in it. *)
Fixpoint literal (pattern : string) : bool :=
  match pattern with
  | EmptyString => true
  | String c rest => negb (Ascii.eqb c "*") && literal rest
  end.

(** The answers a scan for [pattern] can give: exactly the matching keys, in
    any order (a key may be reported more than once). *)
Definition scan_reply (set_key pattern : string) (d : db) (keys : list string) : Prop :=
  ∀ k, k ∈ keys ↔ k ∈ keyspace set_key d ∧ glob pattern k = true.

Definition scanIterator (pattern : string) (reply : list string) : KV (list string) :=
  fun d => (reply, d, [CScan pattern]).

End Kv.

Import Kv.

(** ** HTTP responses *)

Module Http.

(** What a handler sends back: [res.status(s).json(v)] or, with no body,
    [res.status(s).send()]. *)
Record response : Type := Response {
  status : Z;
  body : option json
}.

Definition json_response (s : Z) (v : json) : response := Response s (Some v).

Definition error_body (msg : string) : json := JObj {[ "error" := JStr msg ]}.

(** How the run of a handler ends: it sends a response, or it throws before
    sending one. *)
Inductive outcome : Type :=
  | Sent (r : response)
  | Threw (e : exn).

(** The status of the response sent, if one was. *)
Definition outcome_status (o : outcome) : option Z :=
  match o with
  | Sent r => Some (status r)
  | Threw _ => None
  end.

End Http.

Import Http.

(** ** The handlers of [api/index.js] *)

Module Api.

Definition ASIGNATURA_PREFIX : string := "asignatura:".
Definition ASIGNATURAS_INDEX_KEY : string := "index:asignaturas".

(** [POST /asignaturas]; [id] is the value [nanoid()] yields for this
    request.  The template literal that builds the key converts [cod] to a
    string, and [parseInt] converts [sem] and [uc]: each of the three may
    throw, the first before any command is sent, the other two after the
    existence check and before the writes. *)
Definition post_asignaturas (id : string) (req_body : json) : KV outcome :=
  let carrera := own_props req_body !! "carrera" in
  let sem := own_props req_body !! "sem" in
  let cod := own_props req_body !! "cod" in
  let asig := own_props req_body !! "asig" in
  let uc := own_props req_body !! "uc" in
  let requisitos := own_props req_body !! "requisitos" in
  if negb (truthy carrera) || negb (truthy sem) || negb (truthy cod)
     || negb (truthy asig) || negb (truthy uc)
  then mret (Sent (json_response 400 (error_body "Faltan campos obligatorios.")))
  else
    match to_string_opt cod with
    | None => mret (Threw TypeError)
    | Some cod_text =>
        let key := ASIGNATURA_PREFIX +:+ cod_text in
        existing ← exists_ key;
        if negb (existing =? 0)
        then mret (Sent (json_response 409 (error_body
               ("La asignatura con el código " +:+ cod_text +:+ " ya existe."))))
        else
          match parseInt sem, parseInt uc with
          | Some sem_int, Some uc_int =>
              let newAsignatura := JObj (object_literal [
                ("id", Some (JStr id));
                ("carrera", carrera);
                ("sem", Some (json_of_number sem_int));
                ("cod", cod);
                ("asig", asig);
                ("uc", Some (json_of_number uc_int));
                ("requisitos", or_else requisitos (JArr []))
              ]) in
              _ ← exec [TxSet key newAsignatura; TxSadd ASIGNATURAS_INDEX_KEY key];
              mret (Sent (json_response 201 newAsignatura))
          | _, _ => mret (Threw TypeError)
          end
    end.

(** [GET /asignaturas]; [reply] is the answer of [kv.smembers]. *)
Definition get_asignaturas (reply : list string) : KV response :=
  keys ← smembers ASIGNATURAS_INDEX_KEY reply;
  if (length keys =? 0)%nat
  then mret (json_response 200 (JArr []))
  else
    asignaturas ← mget keys;
    mret (json_response 200 (JArr asignaturas)).

(** [GET /asignaturas/:cod] *)
Definition get_asignatura (cod : string) : KV response :=
  let key := ASIGNATURA_PREFIX +:+ cod in
  asignatura ← get key;
  if negb (truthy (Some asignatura))
  then mret (json_response 404 (error_body "Asignatura no encontrada."))
  else mret (json_response 200 asignatura).

(** [PUT /asignaturas/:cod] *)
Definition put_asignatura (cod : string) (req_body : json) : KV response :=
  let key := ASIGNATURA_PREFIX +:+ cod in
  existingAsignatura ← get key;
  if negb (truthy (Some existingAsignatura))
  then mret (json_response 404 (error_body "Asignatura no encontrada."))
  else
    let updatedAsignatura := JObj (spread existingAsignatura req_body) in
    _ ← set key updatedAsignatura;
    mret (json_response 200 updatedAsignatura).

(** [DELETE /asignaturas/:cod] *)
Definition delete_asignatura (cod : string) : KV response :=
  let key := ASIGNATURA_PREFIX +:+ cod in
  results ← exec [TxDel key; TxSrem ASIGNATURAS_INDEX_KEY key];
  let delResult := head results in
  match delResult with
  | Some (JNum 0) => mret (json_response 404 (error_body "Asignatura no encontrada."))
  | _ => mret (Response 204 None)
  end.

End Api.

Import Api.

(** ** Store commands sent one at a time, without the command log *)

Module Plain.

(** A handler step that reads and updates the database; the commands it
    sends are not recorded. *)
Definition St (A : Type) : Type := db → A * db.

Definition st_ret {A} (a : A) : St A := fun d => (a, d).

Definition st_bind {A B} (m : St A) (f : A → St B) : St B :=
  fun d => let '(a, d1) := m d in f a d1.

#[global] Instance st_mret : MRet St := @st_ret.
#[global] Instance st_mbind : MBind St := fun A B f m => st_bind m f.

(** A logged step, its log dropped. *)
Definition forget {A} (m : KV A) : St A := fun d => (m d).1.

(** [kv.del(key)]: the reply is the number of keys removed. *)
Definition del (key : string) : St Z :=
  fun d =>
    (if bool_decide (is_Some (records d !! key)) then 1 else 0,
     Db (delete key (records d)) (index d)).

End Plain.

Import Plain.

(** ** The handlers of the scan-based version *)

Module ScanApi.

Definition KEY_PREFIX : string := "asignatura:".

(** [GET /asignaturas]; [reply] lists the keys the scan iterator yields, in
    the order it yields them. *)
Definition get_asignaturas (reply : list string) : KV response :=
  keys ← scanIterator (KEY_PREFIX +:+ "*") reply;
  if (length keys =? 0)%nat
  then mret (json_response 200 (JArr []))
  else
    asignaturas ← mget keys;
    mret (json_response 200 (JArr asignaturas)).

(** *** The other handlers of the scan-based version *)

(** [POST /asignaturas]; [id] is the value [nanoid()] yields for this
    request.  The conversions of [cod], [sem] and [uc] may throw as in the
    index-based version. *)
Definition post_asignaturas (id : string) (req_body : json) : St outcome :=
  let carrera := own_props req_body !! "carrera" in
  let sem := own_props req_body !! "sem" in
  let cod := own_props req_body !! "cod" in
  let asig := own_props req_body !! "asig" in
  let uc := own_props req_body !! "uc" in
  let requisitos := own_props req_body !! "requisitos" in
  if negb (truthy carrera) || negb (truthy sem) || negb (truthy cod)
     || negb (truthy asig) || negb (truthy uc)
  then mret (Sent (json_response 400 (error_body
         "Faltan campos obligatorios (carrera, sem, cod, asig, uc).")))
  else
    match to_string_opt cod with
    | None => mret (Threw TypeError)
    | Some cod_text =>
        let key := KEY_PREFIX +:+ cod_text in
        existing ← forget (exists_ key);
        if negb (existing =? 0)
        then mret (Sent (json_response 409 (error_body
               ("La asignatura con el código " +:+ cod_text +:+ " ya existe."))))
        else
          match parseInt sem, parseInt uc with
          | Some sem_int, Some uc_int =>
              let newAsignatura := JObj (object_literal [
                ("id", Some (JStr id));
                ("carrera", carrera);
                ("sem", Some (json_of_number sem_int));
                ("cod", cod);
                ("asig", asig);
                ("uc", Some (json_of_number uc_int));
                ("requisitos", or_else requisitos (JArr []))
              ]) in
              _ ← forget (set key newAsignatura);
              mret (Sent (json_response 201 newAsignatura))
          | _, _ => mret (Threw TypeError)
          end
    end.

(** [GET /asignaturas/:cod] *)
Definition get_asignatura (cod : string) : St response :=
  let key := KEY_PREFIX +:+ cod in
  asignatura ← forget (get key);
  if negb (truthy (Some asignatura))
  then mret (json_response 404 (error_body "Asignatura no encontrada."))
  else mret (json_response 200 asignatura).

(** [PUT /asignaturas/:cod] *)
Definition put_asignatura (cod : string) (req_body : json) : St response :=
  let key := KEY_PREFIX +:+ cod in
  existingAsignatura ← forget (get key);
  if negb (truthy (Some existingAsignatura))
  then mret (json_response 404 (error_body "Asignatura no encontrada."))
  else
    let updatedAsignatura := JObj (spread existingAsignatura req_body) in
    _ ← forget (set key updatedAsignatura);
    mret (json_response 200 updatedAsignatura).

(** [DELETE /asignaturas/:cod] *)
Definition delete_asignatura (cod : string) : St response :=
  let key := KEY_PREFIX +:+ cod in
  result ← del key;
  if result =? 0
  then mret (json_response 404 (error_body "Asignatura no encontrada."))
  else mret (Response 204 None).

End ScanApi.

(** ** Serial executions and the properties under study *)

(** The mutating requests a client can send. *)
Inductive request : Type :=
  | Create (id : string) (req_body : json)
  | Update (cod : string) (req_body : json)
  | Delete (cod : string).

Definition handle (r : request) : KV outcome :=
  match r with
  | Create id req_body => post_asignaturas id req_body
  | Update cod req_body => r ← put_asignatura cod req_body; mret (Sent r)
  | Delete cod => r ← delete_asignatura cod; mret (Sent r)
  end.

(** Requests served one after the other, each on the database the previous
    one left. *)
Fixpoint serve (rs : list request) (d : db) : db :=
  match rs with
  | [] => d
  | r :: rest => serve rest (handle r d).1.2
  end.

(** The index-consistency invariant. *)
Definition consistent (d : db) : Prop :=
  ∀ k, k ∈ index d ↔ is_Some (records d !! k).

(** The code of a Create request as the handler prints it, when that does
    not throw. *)
Definition code_text (req_body : json) : option string :=
  to_string_opt (own_props req_body !! "cod").

(** The storage key a Create request addresses. *)
Definition create_key (req_body : json) : option string :=
  String.append ASIGNATURA_PREFIX <$> code_text req_body.

Definition required_fields : list string := ["carrera"; "sem"; "cod"; "asig"; "uc"].

(** The request passes the required-field check of [POST /asignaturas]. *)
Definition valid (req_body : json) : Prop :=
  Forall (fun f => truthy (own_props req_body !! f) = true) required_fields.


(** The request passes the required-field check and its three conversions
    do not throw: its code prints as [cod], and [parseInt] makes [sem] and
    [uc] of the fields of those names. *)
Definition accepted (req_body : json) (cod : string) (sem uc : number) : Prop :=
  valid req_body ∧
  code_text req_body = Some cod ∧
  parseInt (own_props req_body !! "sem") = Some sem ∧
  parseInt (own_props req_body !! "uc") = Some uc.

(** The record [POST /asignaturas] builds from a request that passed its
    checks, [sem] and [uc] being what [parseInt] made of those fields. *)
Definition new_record (id : string) (req_body : json) (sem uc : number) : json :=
  JObj (object_literal [
    ("id", Some (JStr id));
    ("carrera", own_props req_body !! "carrera");
    ("sem", Some (json_of_number sem));
    ("cod", own_props req_body !! "cod");
    ("asig", own_props req_body !! "asig");
    ("uc", Some (json_of_number uc));
    ("requisitos", or_else (own_props req_body !! "requisitos") (JArr []))
  ]).

Definition missing_fields : response :=
  json_response 400 (error_body "Faltan campos obligatorios.").

Definition not_found : response :=
  json_response 404 (error_body "Asignatura no encontrada.").


(** A handler sent no command that writes. *)
Definition no_writes (t : list cmd) : Prop :=
  Forall (fun c => is_write c = false) t.

(** ** Sample requests and databases *)

Definition cs301 : json :=
  JObj {[ "carrera" := JStr "CS"; "sem" := JNum 3; "cod" := JStr "CS301";
          "asig" := JStr "Algorithms"; "uc" := JNum 4 ]}.

(** The database after [cs301] has been created in an empty one. *)
Definition db_cs301 : db :=
  (post_asignaturas "V1StGXR8_Z5jdHi6B-myT" cs301 empty_db).1.2.

(** A database whose index lists a key that holds no record. *)
Definition db_stale : db := Db ∅ {[ "asignatura:CS301" ]}.

(** ** The statements that do not hold as written *)

(** C3 as written: whenever the key of [cod] holds no record, Delete answers
    404 and leaves the whole state, Index Set included, as it was. *)
Definition delete_missing_as_stated (cod : string) (d : db) : Prop :=
  records d !! (ASIGNATURA_PREFIX +:+ cod) = None →
  ∃ r t, delete_asignatura cod d = (r, d, t) ∧ status r = 404.



(** C6 as written: a Create whose [sem] or [uc] does not coerce to an integer
    answers 400 and writes nothing; when both coerce, the record created
    carries the two integers. *)
Definition numeric_check_as_stated (id : string) (req_body : json) (d : db) : Prop :=
  let sem := own_props req_body !! "sem" in
  let uc := own_props req_body !! "uc" in
  (parseInt sem = Some NaN ∨ parseInt uc = Some NaN →
   ∃ r t, post_asignaturas id req_body d = (Sent r, d, t) ∧
          status r = 400 ∧ no_writes t) ∧
  (∀ a b key, parseInt sem = Some (Num a) → parseInt uc = Some (Num b) →
   valid req_body → create_key req_body = Some key → records d !! key = None →
   ∃ rec, (post_asignaturas id req_body d).1.1 = Sent (json_response 201 (JObj rec)) ∧
          rec !! "sem" = Some (JNum a) ∧ rec !! "uc" = Some (JNum b)).

(** A request whose [sem] is a word. *)
Definition sem_word : json :=
  JObj {[ "carrera" := JStr "CS"; "sem" := JStr "third"; "cod" := JStr "CS301";
          "asig" := JStr "Algorithms"; "uc" := JNum 4 ]}.

(** A request whose [sem] is the number zero. *)
Definition sem_zero : json :=
  JObj {[ "carrera" := JStr "CS"; "sem" := JNum 0; "cod" := JStr "CS301";
          "asig" := JStr "Algorithms"; "uc" := JNum 4 ]}.

(** The request [req_body] with [field] left out. *)
Definition without (field : string) (req_body : json) : json :=
  JObj (delete field (own_props req_body)).

(** A handler sent no command that reads the Record Store. *)
Definition no_record_reads (t : list cmd) : Prop :=
  Forall (fun c => reads_records c = false) t.

(** Every key stored in the Record Store begins with the record prefix. *)
Definition prefixed (d : db) : Prop :=
  ∀ k, is_Some (records d !! k) → String.prefix ASIGNATURA_PREFIX k = true.

(** The keys a scan for the record prefix sees are exactly the keys that
    hold a record. *)
Definition scan_sees_records (d : db) : Prop :=
  ∀ k, k ∈ keyspace ASIGNATURAS_INDEX_KEY d ∧ String.prefix ScanApi.KEY_PREFIX k = true
       ↔ is_Some (records d !! k).

Definition cs302 : json :=
  JObj {[ "carrera" := JStr "CS"; "sem" := JStr "4"; "cod" := JStr "CS302";
          "asig" := JStr "Databases"; "uc" := JNum 3;
          "requisitos" := JArr [JStr "CS301"] ]}.

(** The database after [cs301] and [cs302] have been created in turn. *)
Definition db_two : db :=
  serve [Create "V1StGXR8_Z5jdHi6B-myT" cs301; Create "Uakgb_J5m9g-0JDMbcJqL" cs302]
        empty_db.

(** ** Further notions used in the properties of the handlers *)

(** The scan-based version serving a mutating request. *)
Definition handle_scan (r : request) : St outcome :=
  match r with
  | Create id req_body => ScanApi.post_asignaturas id req_body
  | Update cod req_body => r ← ScanApi.put_asignatura cod req_body; mret (Sent r)
  | Delete cod => r ← ScanApi.delete_asignatura cod; mret (Sent r)
  end.

Fixpoint serve_scan (rs : list request) (d : db) : db :=
  match rs with
  | [] => d
  | r :: rest => serve_scan rest (handle_scan r d).2
  end.

(** The key a request addresses; a Create whose code cannot be printed
    addresses none. *)
Definition request_key (r : request) : option string :=
  match r with
  | Create _ req_body => create_key req_body
  | Update cod _ => Some (ASIGNATURA_PREFIX +:+ cod)
  | Delete cod => Some (ASIGNATURA_PREFIX +:+ cod)
  end.

(** The fields of a record as [POST /asignaturas] writes it. *)
Definition record_fields : gset string :=
  {[ "id"; "carrera"; "sem"; "cod"; "asig"; "uc"; "requisitos" ]}.

(** The value is an object that has every field of [record_fields]. *)
Definition full_record (v : json) : Prop :=
  ∃ o, v = JObj o ∧ record_fields ⊆ dom o.

(** Every stored value is such an object. *)
Definition all_full_records (d : db) : Prop :=
  ∀ k v, records d !! k = Some v → full_record v.

(** An integer that a double holds exactly and prints in plain decimal. *)
Definition safe_integer (z : Z) : Prop := - 2 ^ 53 < z < 2 ^ 53.

(** The value is the integer [z], sent as a JSON number or as the string of
    its decimal digits. *)
Definition integer_input (v : json) (z : Z) : Prop :=
  v = JNum z ∨ v = JStr (pretty z).

(** A request whose [cod] is an object with a [toString] field of its own. *)
Definition cod_unprintable : json :=
  JObj {[ "carrera" := JStr "CS"; "sem" := JNum 3;
          "cod" := JObj {[ "toString" := JNum 1 ]};
          "asig" := JStr "Algorithms"; "uc" := JNum 4 ]}.
(** * Proofs *)

(** ** The value semantics on small inputs *)

Example parseInt_digits : parseInt (Some (JStr "  42px")) = Some (Num 42).
Proof. reflexivity. Qed.

Example parseInt_negative : parseInt (Some (JStr "-7")) = Some (Num (-7)).
Proof. reflexivity. Qed.

Example parseInt_hex : parseInt (Some (JStr "0x1F")) = Some (Num 31).
Proof. reflexivity. Qed.

Example parseInt_word : parseInt (Some (JStr "third")) = Some NaN.
Proof. reflexivity. Qed.

Example parseInt_number : parseInt (Some (JNum 3)) = Some (Num 3).
Proof. reflexivity. Qed.

Example parseInt_array : parseInt (Some (JArr [JNum 5; JNum 6])) = Some (Num 5).
Proof. reflexivity. Qed.

Example parseInt_true : parseInt (Some (JBool true)) = Some NaN.
Proof. reflexivity. Qed.

(** A no-break space (bytes C2 A0) and a line separator (E2 80 A8) before
    the digits are skipped. *)
Example parseInt_unicode_space :
  parseInt (Some (JStr (String (ascii_of_nat 194) (String (ascii_of_nat 160)
     (String (ascii_of_nat 226) (String (ascii_of_nat 128)
     (String (ascii_of_nat 168) "42"))))))) = Some (Num 42).
Proof. reflexivity. Qed.

Example parseInt_rounds : parseInt (Some (JStr "9007199254740993")) =
  Some (Num 9007199254740992).
Proof. vm_compute. reflexivity. Qed.

Example parseInt_large_number : parseInt (Some (JNum (10 ^ 21))) = Some (Num 1).
Proof. vm_compute. reflexivity. Qed.

Example parseInt_own_toString :
  parseInt (Some (JObj {[ "toString" := JNum 1 ]})) = None.
Proof. reflexivity. Qed.

Example to_string_plain_object : to_string (JObj {[ "a" := JNum 1 ]}) =
  Some "[object Object]".
Proof. reflexivity. Qed.

Example to_string_array_throws :
  to_string (JArr [JNum 1; JObj {[ "toString" := JNull ]}]) = None.
Proof. reflexivity. Qed.

Example to_string_exponent : to_string (JNum (10 ^ 21)) = Some "1e+21".
Proof. vm_compute. reflexivity. Qed.

Example to_string_shortest : to_string (JNum (2 ^ 60)) = Some "1152921504606847000".
Proof. vm_compute. reflexivity. Qed.

Example truthy_zero_string : truthy (Some (JStr "0")) = true.
Proof. reflexivity. Qed.

Example truthy_empty_array : truthy (Some (JArr [])) = true.
Proof. reflexivity. Qed.

Example glob_record_key : glob "asignatura:*" "asignatura:CS301" = true.
Proof. reflexivity. Qed.

Example glob_inner_star : glob "a*c" "abbc" = true ∧ glob "a*c" "abbd" = false.
Proof. split; reflexivity. Qed.

(** ** The scenarios of the specification *)

Example scenario_create :
  ∃ rec,
    (post_asignaturas "V1StGXR8_Z5jdHi6B-myT" cs301 empty_db).1.1 =
      Sent (json_response 201 (JObj rec)) ∧
    rec !! "id" = Some (JStr "V1StGXR8_Z5jdHi6B-myT") ∧
    rec !! "requisitos" = Some (JArr []) ∧
    rec !! "sem" = Some (JNum 3).
Proof. eexists. repeat split; reflexivity. Qed.

Example scenario_create_twice :
  (post_asignaturas "Uakgb_J5m9g-0JDMbcJqL" cs301 db_cs301).1 =
    (Sent (json_response 409
       (error_body "La asignatura con el código CS301 ya existe.")),
     db_cs301).
Proof. reflexivity. Qed.

Example scenario_delete_then_get :
  let d := (delete_asignatura "CS301" db_cs301).1.2 in
  status (delete_asignatura "CS301" db_cs301).1.1 = 204 ∧
  d = empty_db ∧
  status (get_asignatura "CS301" d).1.1 = 404.
Proof. repeat split; reflexivity. Qed.

Example scenario_update_credits :
  ∃ rec,
    (put_asignatura "CS301" (JObj {[ "uc" := JNum 5 ]}) db_cs301).1.1 =
      json_response 200 (JObj rec) ∧
    rec !! "uc" = Some (JNum 5) ∧
    rec !! "asig" = Some (JStr "Algorithms").
Proof. eexists. repeat split; reflexivity. Qed.

Example scenario_unprintable_code :
  post_asignaturas "Uakgb_J5m9g-0JDMbcJqL" cod_unprintable db_cs301 =
    (Threw TypeError, db_cs301, []).
Proof. reflexivity. Qed.

(** ** The outcomes of a Create *)

Lemma valid_spec req_body :
  valid req_body ↔
  negb (truthy (own_props req_body !! "carrera"))
  || negb (truthy (own_props req_body !! "sem"))
  || negb (truthy (own_props req_body !! "cod"))
  || negb (truthy (own_props req_body !! "asig"))
  || negb (truthy (own_props req_body !! "uc")) = false.
Proof.
  unfold valid, required_fields.
  rewrite !Forall_cons, Forall_nil, !orb_false_iff, !negb_false_iff.
  tauto.
Qed.

Lemma post_invalid id req_body d :
  ¬ valid req_body →
  post_asignaturas id req_body d = (Sent missing_fields, d, []).
Proof.
  intros Hv. unfold post_asignaturas.
  destruct (negb _ || _ || _ || _ || _) eqn:E; [reflexivity|].
  exfalso. apply Hv, valid_spec, E.
Qed.

Lemma post_unprintable id req_body d :
  valid req_body →
  code_text req_body = None →
  post_asignaturas id req_body d = (Threw TypeError, d, []).
Proof.
  intros Hv Hc. apply valid_spec in Hv. unfold code_text in Hc.
  unfold post_asignaturas. rewrite Hv, Hc. reflexivity.
Qed.

Lemma exists_held d key :
  is_Some (records d !! key) → exists_ key d = (1, d, [CExists key]).
Proof. intros H. unfold exists_. by rewrite bool_decide_true. Qed.

Lemma exists_free d key :
  records d !! key = None → exists_ key d = (0, d, [CExists key]).
Proof.
  intros H. unfold exists_. rewrite bool_decide_false; [done|].
  rewrite H. apply is_Some_None.
Qed.

Lemma post_conflict id req_body cod d :
  valid req_body →
  code_text req_body = Some cod →
  is_Some (records d !! (ASIGNATURA_PREFIX +:+ cod)) →
  post_asignaturas id req_body d =
    (Sent (json_response 409 (error_body
       ("La asignatura con el código " +:+ cod +:+ " ya existe."))),
     d, [CExists (ASIGNATURA_PREFIX +:+ cod)]).
Proof.
  intros Hv Hc Hk. apply valid_spec in Hv. unfold code_text in Hc.
  unfold post_asignaturas. rewrite Hv, Hc.
  unfold mbind, kv_mbind, kv_bind. rewrite exists_held by done. reflexivity.
Qed.

Lemma post_unconvertible id req_body cod d :
  valid req_body →
  code_text req_body = Some cod →
  records d !! (ASIGNATURA_PREFIX +:+ cod) = None →
  parseInt (own_props req_body !! "sem") = None
  ∨ parseInt (own_props req_body !! "uc") = None →
  post_asignaturas id req_body d =
    (Threw TypeError, d, [CExists (ASIGNATURA_PREFIX +:+ cod)]).
Proof.
  intros Hv Hc Hk Hp. apply valid_spec in Hv. unfold code_text in Hc.
  unfold post_asignaturas. rewrite Hv, Hc.
  unfold mbind, kv_mbind, kv_bind. rewrite exists_free by done.
  cbn [negb Z.eqb].
  destruct Hp as [Hp|Hp]; rewrite Hp; [reflexivity|].
  by destruct (parseInt (own_props req_body !! "sem")).
Qed.

Lemma post_created id req_body cod sem uc d :
  accepted req_body cod sem uc →
  records d !! (ASIGNATURA_PREFIX +:+ cod) = None →
  let key := ASIGNATURA_PREFIX +:+ cod in
  let rec := new_record id req_body sem uc in
  post_asignaturas id req_body d =
    (Sent (json_response 201 rec),
     Db (<[key := rec]> (records d)) ({[key]} ∪ index d),
     [CExists key; CExec [TxSet key rec; TxSadd ASIGNATURAS_INDEX_KEY key]]).
Proof.
  intros (Hv & Hc & Hs & Hu) Hk key rec.
  apply valid_spec in Hv. unfold code_text in Hc.
  unfold post_asignaturas. rewrite Hv, Hc.
  unfold mbind, kv_mbind, kv_bind. rewrite exists_free by done.
  cbn [negb Z.eqb]. rewrite Hs, Hu. reflexivity.
Qed.

(** A Create either leaves the state as it was or is an accepted request on
    a free key, which it writes. *)
Lemma post_effect id req_body d :
  (post_asignaturas id req_body d).1.2 = d ∨
  ∃ cod sem uc,
    accepted req_body cod sem uc ∧
    records d !! (ASIGNATURA_PREFIX +:+ cod) = None.
Proof.
  destruct (decide (valid req_body)) as [Hv|Hv];
    [|left; by rewrite post_invalid].
  destruct (code_text req_body) as [cod|] eqn:Hc;
    [|left; by rewrite post_unprintable].
  destruct (records d !! (ASIGNATURA_PREFIX +:+ cod)) eqn:Hk;
    [left; by rewrite (post_conflict id req_body cod)|].
  destruct (parseInt (own_props req_body !! "sem")) as [sem|] eqn:Hs;
    [|left; rewrite (post_unconvertible id req_body cod); auto].
  destruct (parseInt (own_props req_body !! "uc")) as [uc|] eqn:Hu;
    [|left; rewrite (post_unconvertible id req_body cod); auto].
  right. exists cod, sem, uc. by repeat split.
Qed.

(** ** The outcomes of Update and Delete *)

Lemma truthy_lookup d key :
  truthy (Some (lookup_or_null d key)) = true → is_Some (records d !! key).
Proof.
  unfold lookup_or_null. destruct (records d !! key); [eauto|discriminate].
Qed.

Lemma put_missing cod req_body d :
  truthy (Some (lookup_or_null d (ASIGNATURA_PREFIX +:+ cod))) = false →
  put_asignatura cod req_body d =
    (not_found, d, [CGet (ASIGNATURA_PREFIX +:+ cod)]).
Proof.
  intros H. unfold put_asignatura, mbind, kv_mbind, kv_bind, get.
  rewrite H. reflexivity.
Qed.

Lemma put_merged cod req_body d :
  let key := ASIGNATURA_PREFIX +:+ cod in
  let merged := JObj (spread (lookup_or_null d key) req_body) in
  truthy (Some (lookup_or_null d key)) = true →
  put_asignatura cod req_body d =
    (json_response 200 merged,
     Db (<[key := merged]> (records d)) (index d),
     [CGet key; CSet key merged]).
Proof.
  intros key merged H. unfold put_asignatura, mbind, kv_mbind, kv_bind, get.
  fold key. rewrite H. reflexivity.
Qed.

Lemma delete_outcome cod d :
  let key := ASIGNATURA_PREFIX +:+ cod in
  delete_asignatura cod d =
    (if bool_decide (is_Some (records d !! key))
     then Response 204 None else not_found,
     Db (delete key (records d)) (index d ∖ {[key]}),
     [CExec [TxDel key; TxSrem ASIGNATURAS_INDEX_KEY key]]).
Proof.
  intros key. unfold delete_asignatura, mbind, kv_mbind, kv_bind, exec.
  fold key. simpl. case_bool_decide; reflexivity.
Qed.

(** ** Preservation of the invariant *)

Lemma consistent_empty : consistent empty_db.
Proof.
  intros k. simpl. rewrite lookup_empty, elem_of_empty.
  split; [tauto|]. intros H. by apply is_Some_None in H.
Qed.

Lemma consistent_insert d key v :
  consistent d →
  consistent (Db (<[key := v]> (records d)) ({[key]} ∪ index d)).
Proof.
  intros H k. simpl. rewrite elem_of_union, elem_of_singleton, (H k).
  destruct (decide (key = k)) as [->|Hne].
  - rewrite lookup_insert_eq. split; eauto.
  - rewrite lookup_insert_ne by done. split; [intros [?|?]|]; try tauto.
    congruence.
Qed.

Lemma consistent_overwrite d key v :
  consistent d →
  is_Some (records d !! key) →
  consistent (Db (<[key := v]> (records d)) (index d)).
Proof.
  intros H Hk k. simpl. rewrite (H k).
  destruct (decide (key = k)) as [->|Hne].
  - rewrite lookup_insert_eq. split; eauto.
  - by rewrite lookup_insert_ne.
Qed.

Lemma consistent_delete d key :
  consistent d →
  consistent (Db (delete key (records d)) (index d ∖ {[key]})).
Proof.
  intros H k. simpl. rewrite elem_of_difference, elem_of_singleton, (H k).
  destruct (decide (key = k)) as [->|Hne].
  - rewrite lookup_delete_eq. split; [tauto|]. intros Hs.
    by apply is_Some_None in Hs.
  - rewrite lookup_delete_ne by done. split; [tauto|]. split; [done|congruence].
Qed.

Lemma handle_update cod req_body d :
  handle (Update cod req_body) d =
    (Sent (put_asignatura cod req_body d).1.1,
     (put_asignatura cod req_body d).1.2,
     (put_asignatura cod req_body d).2).
Proof.
  simpl. unfold mbind, kv_mbind, kv_bind.
  destruct (put_asignatura cod req_body d) as [[r d'] t]. simpl.
  by rewrite app_nil_r.
Qed.

Lemma handle_delete cod d :
  handle (Delete cod) d =
    (Sent (delete_asignatura cod d).1.1,
     (delete_asignatura cod d).1.2,
     (delete_asignatura cod d).2).
Proof.
  simpl. unfold mbind, kv_mbind, kv_bind.
  destruct (delete_asignatura cod d) as [[r d'] t]. simpl.
  by rewrite app_nil_r.
Qed.

Lemma handle_consistent r d :
  consistent d → consistent (handle r d).1.2.
Proof.
  intros Hd. destruct r as [id req_body|cod req_body|cod].
  - simpl.
    destruct (post_effect id req_body d) as [->|(c & sem & uc & Ha & Hk)];
      [done|].
    rewrite (post_created id req_body c sem uc) by done. simpl.
    by apply consistent_insert.
  - rewrite handle_update. cbn [fst snd].
    destruct (truthy (Some (lookup_or_null d (ASIGNATURA_PREFIX +:+ cod)))) eqn:Ht.
    + rewrite put_merged by done. simpl.
      apply consistent_overwrite; [done|]. by apply truthy_lookup.
    + by rewrite put_missing.
  - rewrite handle_delete, delete_outcome. simpl. by apply consistent_delete.
Qed.

Lemma serve_consistent rs d :
  consistent d → consistent (serve rs d).
Proof.
  revert d. induction rs as [|r rs IH]; intros d Hd; simpl; [done|].
  apply IH, handle_consistent, Hd.
Qed.

(** C1. Starting from empty stores, after any finite sequence of Create,
    Update and Delete requests served one after the other, a key is a member
    of the Index Set exactly when a record is stored under it. *)
Theorem index_consistency (rs : list request) :
  ∀ k, k ∈ index (serve rs empty_db) ↔ is_Some (records (serve rs empty_db) !! k).
Proof.
  apply (serve_consistent rs empty_db), consistent_empty.
Qed.

(** ** Create on an existing key *)

(** C2. For a request that passed the required-field check, in every state
    in which the key derived from its code holds a record, Create answers
    409, sends no command that writes, and leaves the state, and so the
    record created before, as it was. *)
Theorem create_on_existing_key (id : string) (req_body : json) (cod : string)
    (d : db) :
  valid req_body →
  code_text req_body = Some cod →
  is_Some (records d !! (ASIGNATURA_PREFIX +:+ cod)) →
  ∃ r t,
    post_asignaturas id req_body d = (Sent r, d, t) ∧
    status r = 409 ∧
    no_writes t.
Proof.
  intros Hv Hc Hk. rewrite (post_conflict id req_body cod) by done.
  eexists _, _. split; [reflexivity|]. split; [reflexivity|].
  by repeat constructor.
Qed.

Lemma cs301_valid : valid cs301.
Proof. apply valid_spec. reflexivity. Defined.

Lemma create_on_existing_key_witness :
  ∃ r t,
    post_asignaturas "Uakgb_J5m9g-0JDMbcJqL" cs301 db_cs301 = (Sent r, db_cs301, t) ∧
    status r = 409 ∧
    no_writes t.
Proof.
  apply (create_on_existing_key "Uakgb_J5m9g-0JDMbcJqL" cs301 "CS301" db_cs301).
  - apply cs301_valid.
  - reflexivity.
  - vm_compute. eauto.
Defined.

(** ** Delete on a key that holds no record *)

(** C3, counterexample: the key is listed in the index but holds no record;
    the failed Delete removes it from the index. *)
Lemma failed_delete_changes_index :
  ¬ delete_missing_as_stated "CS301" db_stale.
Proof.
  intros H. destruct H as (r & t & Heq & _); [reflexivity|].
  rewrite delete_outcome in Heq.
  apply (f_equal (fun x => index x.1.2)) in Heq. simpl in Heq.
  assert (Hin : "asignatura:CS301" ∈ index db_stale) by (simpl; set_solver).
  revert Hin. generalize (index db_stale) Heq. set_solver.
Qed.

(** C3, amended. When the key of [cod] holds no record, Delete answers 404
    and leaves the Record Store as it was; the Index Set afterwards is the
    one before without that key, so the state is unchanged whenever the key
    was not a member of the index, as in every index-consistent state. *)
Theorem delete_missing (cod : string) (d : db) :
  let key := ASIGNATURA_PREFIX +:+ cod in
  records d !! key = None →
  ∃ r d' t,
    delete_asignatura cod d = (r, d', t) ∧
    status r = 404 ∧
    records d' = records d ∧
    index d' = index d ∖ {[key]} ∧
    (key ∉ index d → d' = d) ∧
    (consistent d → d' = d).
Proof.
  intros key Hk. rewrite delete_outcome. fold key.
  rewrite bool_decide_false by (rewrite Hk; apply is_Some_None).
  eexists _, _, _. split; [reflexivity|]. simpl.
  assert (Hfix : key ∉ index d →
    Db (delete key (records d)) (index d ∖ {[key]}) = d).
  { intros Hn. destruct d as [recs idx]; simpl in *. f_equal.
    - by apply delete_id.
    - by apply difference_disjoint_L, disjoint_singleton_r. }
  split; [done|]. split; [by apply delete_id|]. split; [done|].
  split; [done|]. intros Hc. apply Hfix. rewrite (Hc key), Hk.
  apply is_Some_None.
Qed.

Lemma delete_missing_witness :
  ∃ r d' t,
    delete_asignatura "CS302" db_cs301 = (r, d', t) ∧
    status r = 404 ∧
    records d' = records db_cs301 ∧
    index d' = index db_cs301 ∖ {["asignatura:CS302"]} ∧
    ("asignatura:CS302" ∉ index db_cs301 → d' = db_cs301) ∧
    (consistent db_cs301 → d' = db_cs301).
Proof.
  apply (delete_missing "CS302" db_cs301). reflexivity.
Defined.

(** ** Update *)






(** ** The record a Create builds *)

Lemma object_literal_cons k v fields f :
  object_literal ((k, v) :: fields) !! f =
    if decide (k = f)
    then match v with Some x => Some x | None => object_literal fields !! f end
    else object_literal fields !! f.
Proof.
  unfold object_literal. destruct v as [x|]; simpl.
  - case_decide as E.
    + subst. apply lookup_insert_eq.
    + by apply lookup_insert_ne.
  - by case_decide.
Qed.

Lemma new_record_fields id req_body sem uc :
  ∃ rec,
    new_record id req_body sem uc = JObj rec ∧
    rec !! "id" = Some (JStr id) ∧
    rec !! "sem" = Some (json_of_number sem) ∧
    rec !! "uc" = Some (json_of_number uc).
Proof.
  eexists. split; [reflexivity|].
  repeat split; repeat (rewrite object_literal_cons; simpl); reflexivity.
Qed.

Lemma sem_word_accepted : accepted sem_word "CS301" NaN (Num 4).
Proof. split; [apply valid_spec; reflexivity|]. by repeat split. Defined.

(** C6, counterexample: the request carries the word "third" as its [sem];
    Create answers 201 and writes the record. *)
Lemma create_accepts_non_numeric :
  ¬ numeric_check_as_stated "Uakgb_J5m9g-0JDMbcJqL" sem_word empty_db.
Proof.
  intros [H _]. destruct H as (r & t & Heq & Hs & _).
  - left. reflexivity.
  - rewrite (post_created _ _ _ _ _ _ sem_word_accepted) in Heq by reflexivity.
    injection Heq as <- _. discriminate Hs.
Qed.

(** C6, amended. A Create whose five required fields are truthy, whose
    [cod], [sem] and [uc] convert to strings without throwing and whose key
    is free never fails on the numeric fields: it answers 201 and writes a
    record whose [sem] and [uc] are what [parseInt] makes of the request's
    values, the integer (as the nearest double) when digits are read, and
    [null] when the result is the not-a-number sentinel or an infinity. *)
Theorem create_coerces_numeric_fields (id : string) (req_body : json)
    (cod : string) (sem uc : number) (d : db) :
  let key := ASIGNATURA_PREFIX +:+ cod in
  accepted req_body cod sem uc →
  records d !! key = None →
  ∃ rec d' t,
    post_asignaturas id req_body d = (Sent (json_response 201 (JObj rec)), d', t) ∧
    records d' !! key = Some (JObj rec) ∧
    rec !! "sem" = Some (json_of_number sem) ∧
    rec !! "uc" = Some (json_of_number uc) ∧
    (∀ a, sem = Num a → rec !! "sem" = Some (JNum a)) ∧
    (∀ b, uc = Num b → rec !! "uc" = Some (JNum b)) ∧
    (sem = NaN → rec !! "sem" = Some JNull) ∧
    (uc = NaN → rec !! "uc" = Some JNull).
Proof.
  intros key Ha Hk.
  rewrite (post_created id req_body cod sem uc) by done. fold key.
  destruct (new_record_fields id req_body sem uc) as (rec & -> & _ & Hsem & Huc).
  eexists _, _, _. split; [reflexivity|]. simpl.
  split; [apply lookup_insert_eq|].
  rewrite Hsem, Huc.
  repeat split; intros; by subst.
Qed.

Lemma create_coerces_numeric_fields_witness :
  ∃ rec d' t,
    post_asignaturas "Uakgb_J5m9g-0JDMbcJqL" sem_word empty_db =
      (Sent (json_response 201 (JObj rec)), d', t) ∧
    records d' !! (ASIGNATURA_PREFIX +:+ "CS301") = Some (JObj rec) ∧
    rec !! "sem" = Some (json_of_number NaN) ∧
    rec !! "uc" = Some (json_of_number (Num 4)) ∧
    (∀ a, NaN = Num a → rec !! "sem" = Some (JNum a)) ∧
    (∀ b, Num 4 = Num b → rec !! "uc" = Some (JNum b)) ∧
    (NaN = NaN → rec !! "sem" = Some JNull) ∧
    (Num 4 = NaN → rec !! "uc" = Some JNull).
Proof.
  apply (create_coerces_numeric_fields "Uakgb_J5m9g-0JDMbcJqL" sem_word
           "CS301" NaN (Num 4) empty_db).
  - apply sem_word_accepted.
  - reflexivity.
Defined.

(** ** Create followed by GetOne *)

(** C7. Round trip: after a Create whose five required fields are truthy,
    whose conversions do not throw and whose key was free, GetOne on the
    request's code (a route parameter, so not the empty string) answers 200
    with the very record the Create answered with, which carries the id
    generated for it. *)
Theorem create_then_get_one (id : string) (req_body : json) (cod : string)
    (sem uc : number) (d : db) :
  accepted req_body cod sem uc →
  cod ≠ "" →
  records d !! (ASIGNATURA_PREFIX +:+ cod) = None →
  ∃ rec d1 t1 t2,
    post_asignaturas id req_body d = (Sent (json_response 201 (JObj rec)), d1, t1) ∧
    get_asignatura cod d1 = (json_response 200 (JObj rec), d1, t2) ∧
    rec !! "id" = Some (JStr id).
Proof.
  intros Ha _ Hk. rewrite (post_created id req_body cod sem uc) by done.
  destruct (new_record_fields id req_body sem uc) as (rec & -> & Hid & _).
  eexists _, _, _, _. split; [reflexivity|]. split; [|exact Hid].
  unfold get_asignatura, mbind, kv_mbind, kv_bind, get, lookup_or_null.
  simpl. rewrite lookup_insert_eq. reflexivity.
Qed.

Lemma cs301_accepted : accepted cs301 "CS301" (Num 3) (Num 4).
Proof. split; [apply cs301_valid|]. by repeat split. Defined.

Lemma create_then_get_one_witness :
  ∃ rec d1 t1 t2,
    post_asignaturas "V1StGXR8_Z5jdHi6B-myT" cs301 empty_db =
      (Sent (json_response 201 (JObj rec)), d1, t1) ∧
    get_asignatura "CS301" d1 = (json_response 200 (JObj rec), d1, t2) ∧
    rec !! "id" = Some (JStr "V1StGXR8_Z5jdHi6B-myT").
Proof.
  apply (create_then_get_one "V1StGXR8_Z5jdHi6B-myT" cs301 "CS301"
           (Num 3) (Num 4) empty_db).
  - apply cs301_accepted.
  - discriminate.
  - reflexivity.
Defined.

(** ** Falsy required fields *)

(** C10. A Create in which one of the five required fields is present but
    falsy (zero, the empty string, [false], [null]) is answered 400 without
    any command being sent to the store, and is answered exactly as the same
    request with that field left out. *)
Theorem create_rejects_falsy_field (id f : string) (v : json)
    (req_body : json) (d : db) :
  f ∈ required_fields →
  own_props req_body !! f = Some v →
  truthy (Some v) = false →
  ∃ r,
    post_asignaturas id req_body d = (Sent r, d, []) ∧
    status r = 400 ∧
    post_asignaturas id (without f req_body) d = (Sent r, d, []).
Proof.
  intros Hf Hv Ht. exists missing_fields.
  assert (H1 : ¬ valid req_body).
  { intros H. unfold valid in H. rewrite Forall_forall in H.
    specialize (H f Hf). rewrite Hv in H. congruence. }
  assert (H2 : ¬ valid (without f req_body)).
  { intros H. unfold valid in H. rewrite Forall_forall in H.
    specialize (H f Hf). unfold without in H. simpl in H.
    rewrite lookup_delete_eq in H. discriminate H. }
  split; [by apply post_invalid|]. split; [reflexivity|by apply post_invalid].
Qed.

Lemma create_rejects_falsy_field_witness :
  ∃ r,
    post_asignaturas "Uakgb_J5m9g-0JDMbcJqL" sem_zero db_cs301 =
      (Sent r, db_cs301, []) ∧
    status r = 400 ∧
    post_asignaturas "Uakgb_J5m9g-0JDMbcJqL" (without "sem" sem_zero) db_cs301 =
      (Sent r, db_cs301, []).
Proof.
  apply (create_rejects_falsy_field "Uakgb_J5m9g-0JDMbcJqL" "sem" (JNum 0)
           sem_zero db_cs301).
  - unfold required_fields. apply list_elem_of_further, list_elem_of_here.
  - reflexivity.
  - reflexivity.
Defined.

(** ** ListAll *)

Lemma smembers_reply_length d reply :
  smembers_reply d reply → length reply = size (index d).
Proof.
  intros [Hnd Hel]. unfold size, set_size. simpl.
  apply Permutation_length, NoDup_Permutation; [done|apply NoDup_elements|].
  intros k. by rewrite Hel, elem_of_elements.
Qed.

Lemma smembers_reply_empty d reply :
  smembers_reply d reply → index d = ∅ → reply = [].
Proof.
  intros [_ Hel] He. destruct reply as [|k reply]; [done|].
  exfalso. specialize (Hel k). rewrite He in Hel.
  apply (not_elem_of_empty (C:=gset string) k), Hel, list_elem_of_here.
Qed.

Lemma list_by_index reply d :
  ∃ t,
    Api.get_asignaturas reply d =
      (json_response 200 (JArr (map (lookup_or_null d) reply)), d, t) ∧
    (reply = [] → t = [CSmembers ASIGNATURAS_INDEX_KEY]).
Proof.
  unfold Api.get_asignaturas, mbind, kv_mbind, kv_bind, smembers, mget.
  destruct reply as [|k reply]; simpl.
  - eexists. split; reflexivity.
  - eexists. split; [reflexivity|discriminate].
Qed.

(** C8. ListAll answers 200 and changes nothing.  When the Index Set is
    empty the answer is the empty sequence and no command that reads the
    Record Store is sent.  Otherwise the answer has one entry per member of
    the index, the i-th entry being what the Record Store holds under the
    i-th member key, and [null] when it holds nothing there. *)
Theorem list_all (reply : list string) (d : db) :
  smembers_reply d reply →
  ∃ results t,
    Api.get_asignaturas reply d = (json_response 200 (JArr results), d, t) ∧
    (index d = ∅ → results = [] ∧ no_record_reads t) ∧
    length results = size (index d) ∧
    length results = length reply ∧
    (∀ i k, reply !! i = Some k →
       results !! i = Some (default JNull (records d !! k))) ∧
    (∀ i k, reply !! i = Some k → records d !! k = None →
       results !! i = Some JNull).
Proof.
  intros Hr. destruct (list_by_index reply d) as (t & Heq & Ht).
  eexists _, t. split; [exact Heq|].
  assert (Hi : ∀ i k, reply !! i = Some k →
    map (lookup_or_null d) reply !! i = Some (default JNull (records d !! k))).
  { intros i k Hik. by rewrite list_lookup_fmap, Hik. }
  split.
  - intros He. pose proof (smembers_reply_empty _ _ Hr He) as ->.
    split; [reflexivity|]. rewrite Ht by reflexivity.
    by repeat constructor.
  - rewrite length_map. split; [by apply smembers_reply_length|].
    split; [reflexivity|]. split; [exact Hi|].
    intros i k Hik Hk. rewrite (Hi i k Hik), Hk. reflexivity.
Qed.

Lemma stale_reply : smembers_reply db_stale ["asignatura:CS301"].
Proof.
  split.
  - apply NoDup_singleton.
  - intros k. simpl. by rewrite list_elem_of_singleton, elem_of_singleton.
Qed.

Lemma list_all_witness :
  ∃ results t,
    Api.get_asignaturas ["asignatura:CS301"] db_stale =
      (json_response 200 (JArr results), db_stale, t) ∧
    (index db_stale = ∅ → results = [] ∧ no_record_reads t) ∧
    length results = size (index db_stale) ∧
    length results = length ["asignatura:CS301"] ∧
    (∀ i k, ["asignatura:CS301"] !! i = Some k →
       results !! i = Some (default JNull (records db_stale !! k))) ∧
    (∀ i k, ["asignatura:CS301"] !! i = Some k → records db_stale !! k = None →
       results !! i = Some JNull).
Proof.
  apply (list_all ["asignatura:CS301"] db_stale). apply stale_reply.
Defined.

(** ** The two enumerations *)

Lemma glob_star s : glob "*" s = true.
Proof.
  induction s as [|c s IH]; [reflexivity|].
  simpl in *. exact IH.
Qed.

Lemma glob_literal_star p s :
  literal p = true → glob (p +:+ "*") s = String.prefix p s.
Proof.
  revert s. induction p as [|c p IH]; intros s Hl.
  - destruct s; [reflexivity|apply glob_star].
  - simpl in Hl. apply andb_true_iff in Hl as [Hc Hl].
    apply negb_true_iff in Hc.
    change (String c p +:+ "*") with (String c (p +:+ "*")).
    cbn [glob String.prefix]. rewrite Hc.
    destruct s as [|c' s]; [reflexivity|].
    cbn [String.prefix].
    destruct (ascii_dec c c') as [<-|Hne].
    + rewrite Ascii.eqb_refl. simpl. by apply IH.
    + apply Ascii.eqb_neq in Hne. by rewrite Hne.
Qed.

Lemma prefix_app p s : String.prefix p (p +:+ s) = true.
Proof.
  induction p as [|c p IH]; [by destruct s|].
  change (String c p +:+ s) with (String c (p +:+ s)). simpl.
  by destruct (ascii_dec c c).
Qed.

(** The set of member keys never matches the record pattern, and no record
    key names it. *)
Lemma index_key_not_scanned :
  glob (ScanApi.KEY_PREFIX +:+ "*") ASIGNATURAS_INDEX_KEY = false.
Proof. reflexivity. Qed.

Lemma record_key_not_index_key cod :
  ASIGNATURA_PREFIX +:+ cod ≠ ASIGNATURAS_INDEX_KEY.
Proof. discriminate. Qed.

Lemma same_keys d by_index by_scan :
  consistent d →
  scan_sees_records d →
  smembers_reply d by_index →
  scan_reply ASIGNATURAS_INDEX_KEY (ScanApi.KEY_PREFIX +:+ "*") d by_scan →
  ∀ k, k ∈ by_index ↔ k ∈ by_scan.
Proof.
  intros Hc Hs [_ Hi] Hsc k.
  rewrite Hi, (Hc k), <- (Hs k), (Hsc k).
  by rewrite glob_literal_star.
Qed.

Lemma list_by_scan reply d :
  ScanApi.get_asignaturas reply d =
    (json_response 200 (JArr (map (lookup_or_null d) reply)), d,
     CScan (ScanApi.KEY_PREFIX +:+ "*") :: match reply with [] => [] | _ => [CMget reply] end).
Proof.
  unfold ScanApi.get_asignaturas, mbind, kv_mbind, kv_bind, scanIterator, mget.
  by destruct reply.
Qed.

(** C9. In a state that satisfies the index-consistency invariant and in
    which the keys carrying the record prefix are exactly the keys that hold
    a record, the index-based and the scan-based ListAll both answer 200 with
    the same set of records; when the scan reports no key twice the two
    answers are permutations of each other. *)
Theorem enumerations_agree (d : db) (by_index by_scan : list string) :
  consistent d →
  scan_sees_records d →
  smembers_reply d by_index →
  scan_reply ASIGNATURAS_INDEX_KEY (ScanApi.KEY_PREFIX +:+ "*") d by_scan →
  ∃ l1 l2,
    (Api.get_asignaturas by_index d).1.1 = json_response 200 (JArr l1) ∧
    (ScanApi.get_asignaturas by_scan d).1.1 = json_response 200 (JArr l2) ∧
    (∀ r, r ∈ l1 ↔ r ∈ l2) ∧
    (NoDup by_scan → l1 ≡ₚ l2).
Proof.
  intros Hc Hs Hi Hsc.
  pose proof (same_keys d by_index by_scan Hc Hs Hi Hsc) as Hk.
  destruct (list_by_index by_index d) as (t & -> & _).
  rewrite list_by_scan. eexists _, _.
  split; [reflexivity|]. split; [reflexivity|]. split.
  - intros r. rewrite !list_elem_of_fmap. split; intros (k & -> & Hin);
      exists k; (split; [reflexivity|]); by apply Hk.
  - intros Hnd. apply fmap_Permutation, NoDup_Permutation; [apply Hi|done|done].
Qed.

(** *** The hypotheses of C9 hold in every state the handlers can reach *)

Lemma handle_prefixed r d : prefixed d → prefixed (handle r d).1.2.
Proof.
  intros Hd. destruct r as [id req_body|cod req_body|cod].
  - simpl.
    destruct (post_effect id req_body d) as [->|(c & sem & uc & Ha & Hk)];
      [done|].
    rewrite (post_created id req_body c sem uc) by done. intros k. simpl.
    rewrite lookup_insert_is_Some. intros [<-|[_ Hs]]; [|by apply Hd].
    apply prefix_app.
  - rewrite handle_update. cbn [fst snd].
    destruct (truthy (Some (lookup_or_null d (ASIGNATURA_PREFIX +:+ cod)))) eqn:Ht.
    + rewrite put_merged by done. intros k. simpl.
      rewrite lookup_insert_is_Some. intros [<-|[_ Hs]]; [|by apply Hd].
      apply prefix_app.
    + by rewrite put_missing.
  - rewrite handle_delete, delete_outcome. intros k. simpl.
    rewrite lookup_delete_is_Some. intros [_ Hs]. by apply Hd.
Qed.

Lemma serve_prefixed rs d : prefixed d → prefixed (serve rs d).
Proof.
  revert d. induction rs as [|r rs IH]; intros d Hd; simpl; [done|].
  apply IH, handle_prefixed, Hd.
Qed.

Lemma prefixed_scan_sees_records d : prefixed d → scan_sees_records d.
Proof.
  intros Hp k. unfold keyspace. split.
  - intros [Hin Hpre]. apply elem_of_union in Hin as [Hin|Hin].
    + by apply elem_of_dom.
    + case_decide; [by apply not_elem_of_empty in Hin|].
      apply elem_of_singleton in Hin. subst k. discriminate Hpre.
  - intros Hs. split; [|by apply Hp].
    apply elem_of_union_l. by apply elem_of_dom.
Qed.

Lemma reachable_scan_sees_records rs : scan_sees_records (serve rs empty_db).
Proof.
  apply prefixed_scan_sees_records, serve_prefixed.
  intros k Hs. simpl in Hs. rewrite lookup_empty in Hs.
  by apply is_Some_None in Hs.
Qed.

Lemma db_two_records k :
  is_Some (records db_two !! k) ↔ k = "asignatura:CS301" ∨ k = "asignatura:CS302".
Proof.
  change (records db_two) with
    (<["asignatura:CS302" := new_record "Uakgb_J5m9g-0JDMbcJqL" cs302 (Num 4) (Num 3)]>
       (<["asignatura:CS301" := new_record "V1StGXR8_Z5jdHi6B-myT" cs301 (Num 3) (Num 4)]>
          (∅ : gmap string json))).
  rewrite !lookup_insert_is_Some, lookup_empty. split.
  - intros [<-|[_ [<-|[_ Hs]]]]; [by right|by left|].
    by apply is_Some_None in Hs.
  - intros [->| ->]; [right; split; [done|by left]|by left].
Qed.

Lemma db_two_consistent : consistent db_two.
Proof. apply serve_consistent, consistent_empty. Qed.

Lemma db_two_scan_sees_records : scan_sees_records db_two.
Proof. apply reachable_scan_sees_records. Qed.

Lemma db_two_by_index :
  smembers_reply db_two ["asignatura:CS301"; "asignatura:CS302"].
Proof.
  split.
  - apply NoDup_cons. split; [|apply NoDup_singleton].
    rewrite list_elem_of_singleton. discriminate.
  - intros k. rewrite (db_two_consistent k), db_two_records.
    rewrite elem_of_cons, list_elem_of_singleton. tauto.
Qed.

Lemma db_two_by_scan :
  scan_reply ASIGNATURAS_INDEX_KEY (ScanApi.KEY_PREFIX +:+ "*") db_two
    ["asignatura:CS302"; "asignatura:CS301"].
Proof.
  intros k. rewrite glob_literal_star by reflexivity.
  rewrite (db_two_scan_sees_records k), db_two_records.
  rewrite elem_of_cons, list_elem_of_singleton. tauto.
Qed.

Lemma enumerations_agree_witness :
  ∃ l1 l2,
    (Api.get_asignaturas ["asignatura:CS301"; "asignatura:CS302"] db_two).1.1 =
      json_response 200 (JArr l1) ∧
    (ScanApi.get_asignaturas ["asignatura:CS302"; "asignatura:CS301"] db_two).1.1 =
      json_response 200 (JArr l2) ∧
    (∀ r, r ∈ l1 ↔ r ∈ l2) ∧
    (NoDup ["asignatura:CS302"; "asignatura:CS301"] → l1 ≡ₚ l2).
Proof.
  apply (enumerations_agree db_two
           ["asignatura:CS301"; "asignatura:CS302"]
           ["asignatura:CS302"; "asignatura:CS301"]).
  - apply db_two_consistent.
  - apply db_two_scan_sees_records.
  - apply db_two_by_index.
  - apply db_two_by_scan.
Defined.

(** * Further properties of the handlers *)

(** ** Keys *)

(** X1. Two codes address the same record only when they are the same code, and
    no code addresses the key under which the index set is stored, nor does
    the record pattern of the scan match that key. *)
Theorem record_keys_distinct (cod1 cod2 : string) :
  (ASIGNATURA_PREFIX +:+ cod1 = ASIGNATURA_PREFIX +:+ cod2 → cod1 = cod2) ∧
  ASIGNATURA_PREFIX +:+ cod1 ≠ ASIGNATURAS_INDEX_KEY ∧
  glob (ScanApi.KEY_PREFIX +:+ "*") (ASIGNATURA_PREFIX +:+ cod1) = true ∧
  glob (ScanApi.KEY_PREFIX +:+ "*") ASIGNATURAS_INDEX_KEY = false.
Proof.
  split; [apply String.app_inj|]. split; [discriminate|].
  split; [|reflexivity].
  rewrite glob_literal_star by reflexivity. apply prefix_app.
Qed.

(** ** Delete *)

Lemma delete_state cod d :
  (delete_asignatura cod d).1.2 =
    Db (delete (ASIGNATURA_PREFIX +:+ cod) (records d))
       (index d ∖ {[ASIGNATURA_PREFIX +:+ cod]}).
Proof. by rewrite delete_outcome. Qed.

(** X2. A Delete on a key that holds a record answers 204 with no body; after it
    the key holds no record and is no member of the index. *)
Theorem delete_existing (cod : string) (d : db) :
  let key := ASIGNATURA_PREFIX +:+ cod in
  is_Some (records d !! key) →
  ∃ d' t,
    delete_asignatura cod d = (Response 204 None, d', t) ∧
    records d' !! key = None ∧
    key ∉ index d'.
Proof.
  intros key Hk. rewrite delete_outcome. fold key.
  rewrite bool_decide_true by done.
  eexists _, _. split; [reflexivity|]. simpl.
  split; [apply lookup_delete_eq|].
  rewrite elem_of_difference, elem_of_singleton. tauto.
Qed.

Lemma delete_existing_witness :
  ∃ d' t,
    delete_asignatura "CS301" db_cs301 = (Response 204 None, d', t) ∧
    records d' !! "asignatura:CS301" = None ∧
    "asignatura:CS301" ∉ index d'.
Proof.
  apply (delete_existing "CS301" db_cs301). vm_compute. eauto.
Defined.

(** X3. Whatever the state, a second Delete of the same code answers 404 and
    changes nothing. *)
Theorem delete_twice (cod : string) (d : db) :
  let d1 := (delete_asignatura cod d).1.2 in
  (delete_asignatura cod d1).1 = (not_found, d1).
Proof.
  intros d1. unfold d1. rewrite delete_state, delete_outcome. simpl.
  rewrite lookup_delete_eq.
  rewrite bool_decide_false by apply is_Some_None.
  f_equal. f_equal.
  - apply delete_delete_eq.
  - apply set_eq. intros k.
    rewrite !elem_of_difference. tauto.
Qed.

(** X4. Whatever the state, after a Delete a GetOne of the same code answers 404,
    and no answer of the index lists the key. *)
Theorem delete_then_get_one (cod : string) (d : db) (reply : list string) :
  let d1 := (delete_asignatura cod d).1.2 in
  (get_asignatura cod d1).1 = (not_found, d1) ∧
  (smembers_reply d1 reply → ASIGNATURA_PREFIX +:+ cod ∉ reply).
Proof.
  intros d1. unfold d1. rewrite delete_state. split.
  - unfold get_asignatura, mbind, kv_mbind, kv_bind, get, lookup_or_null.
    simpl. rewrite lookup_delete_eq. reflexivity.
  - intros [_ Hel] Hin. apply Hel in Hin. simpl in Hin.
    rewrite elem_of_difference, elem_of_singleton in Hin. tauto.
Qed.

(** ** Create composed with itself and with Delete *)

(** X5. Codes are compared by the key they give.  Whatever the state, when
    a request whose five required fields are truthy and whose conversions
    do not throw has been served, a second request with truthy required
    fields whose code prints as the same text is answered 409 and changes
    nothing, whatever its other fields. *)
Theorem create_same_code_twice (id1 id2 : string) (body1 body2 : json)
    (cod : string) (sem uc : number) (d : db) :
  accepted body1 cod sem uc →
  valid body2 →
  code_text body2 = Some cod →
  let d1 := (post_asignaturas id1 body1 d).1.2 in
  ∃ r t,
    post_asignaturas id2 body2 d1 = (Sent r, d1, t) ∧ status r = 409.
Proof.
  intros Ha Hv2 Hc2 d1.
  assert (Hk : is_Some (records d1 !! (ASIGNATURA_PREFIX +:+ cod))).
  { unfold d1. destruct (records d !! (ASIGNATURA_PREFIX +:+ cod)) eqn:Hk.
    - destruct Ha as (Hv1 & Hc1 & _).
      rewrite (post_conflict id1 body1 cod) by eauto. simpl. rewrite Hk. eauto.
    - rewrite (post_created id1 body1 cod sem uc) by done. simpl.
      rewrite lookup_insert_eq. eauto. }
  rewrite (post_conflict id2 body2 cod) by done.
  eexists _, _. split; reflexivity.
Qed.

Lemma create_same_code_twice_witness :
  ∃ r t,
    post_asignaturas "Uakgb_J5m9g-0JDMbcJqL"
      (JObj {[ "carrera" := JStr "Math"; "sem" := JNum 1; "cod" := JArr [JStr "CS301"];
               "asig" := JStr "Calculus"; "uc" := JNum 5 ]})
      (post_asignaturas "V1StGXR8_Z5jdHi6B-myT" cs301 empty_db).1.2 =
      (Sent r, (post_asignaturas "V1StGXR8_Z5jdHi6B-myT" cs301 empty_db).1.2, t) ∧
    status r = 409.
Proof.
  apply (create_same_code_twice "V1StGXR8_Z5jdHi6B-myT" "Uakgb_J5m9g-0JDMbcJqL" cs301
           (JObj {[ "carrera" := JStr "Math"; "sem" := JNum 1; "cod" := JArr [JStr "CS301"];
                    "asig" := JStr "Calculus"; "uc" := JNum 5 ]})
           "CS301" (Num 3) (Num 4) empty_db).
  - apply cs301_accepted.
  - apply valid_spec. reflexivity.
  - reflexivity.
Defined.

(** X6. A Create that is accepted (truthy required fields, no conversion
    throws) on a key that holds no record and is no member of the index,
    followed by a Delete of the request's code (a route parameter, so not
    the empty string), answers 204 and gives back the state there was
    before the Create. *)
Theorem create_then_delete (id : string) (req_body : json) (cod : string)
    (sem uc : number) (d : db) :
  accepted req_body cod sem uc →
  cod ≠ "" →
  records d !! (ASIGNATURA_PREFIX +:+ cod) = None →
  ASIGNATURA_PREFIX +:+ cod ∉ index d →
  let d1 := (post_asignaturas id req_body d).1.2 in
  (post_asignaturas id req_body d).1.1 =
    Sent (json_response 201 (new_record id req_body sem uc)) ∧
  (delete_asignatura cod d1).1 = (Response 204 None, d).
Proof.
  intros Ha _ Hk Hi d1. unfold d1.
  rewrite (post_created id req_body cod sem uc) by done.
  split; [reflexivity|].
  rewrite delete_outcome. simpl.
  rewrite lookup_insert_eq, bool_decide_true by eauto.
  destruct d as [recs idx]; simpl in *. f_equal. f_equal.
  - by apply delete_insert_id.
  - apply set_eq. intros k.
    rewrite elem_of_difference, elem_of_union, elem_of_singleton.
    split; [tauto|]. intros Hin. split; [tauto|]. congruence.
Qed.

Lemma create_then_delete_witness :
  (post_asignaturas "V1StGXR8_Z5jdHi6B-myT" cs301 empty_db).1.1 =
    Sent (json_response 201
            (new_record "V1StGXR8_Z5jdHi6B-myT" cs301 (Num 3) (Num 4))) ∧
  (delete_asignatura "CS301"
     (post_asignaturas "V1StGXR8_Z5jdHi6B-myT" cs301 empty_db).1.2).1 =
    (Response 204 None, empty_db).
Proof.
  apply (create_then_delete "V1StGXR8_Z5jdHi6B-myT" cs301 "CS301"
           (Num 3) (Num 4) empty_db).
  - apply cs301_accepted.
  - discriminate.
  - reflexivity.
  - apply not_elem_of_empty.
Defined.

(** ** Update *)

Lemma put_state cod req_body d :
  let key := ASIGNATURA_PREFIX +:+ cod in
  put_asignatura cod req_body d =
    if truthy (Some (lookup_or_null d key))
    then (json_response 200 (JObj (spread (lookup_or_null d key) req_body)),
          Db (<[key := JObj (spread (lookup_or_null d key) req_body)]> (records d))
             (index d),
          [CGet key; CSet key (JObj (spread (lookup_or_null d key) req_body))])
    else (not_found, d, [CGet key]).
Proof.
  intros key. destruct (truthy (Some (lookup_or_null d key))) eqn:Ht.
  - by apply put_merged.
  - by apply put_missing.
Qed.

Lemma lookup_or_null_insert recs idx key v :
  lookup_or_null (Db (<[key := v]> recs) idx) key = v.
Proof. unfold lookup_or_null. simpl. by rewrite lookup_insert_eq. Qed.

(** X7. An Update neither creates nor removes a record, and leaves the Index Set
    as it was: the keys that hold a record are the same before and after,
    whatever the request and the state. *)
Theorem update_keeps_keys (cod : string) (req_body : json) (d : db) :
  let d' := (put_asignatura cod req_body d).1.2 in
  dom (records d') = dom (records d) ∧ index d' = index d.
Proof.
  intros d'. unfold d'. rewrite put_state.
  destruct (truthy _) eqn:Ht; simpl; [|done].
  split; [|done]. apply dom_insert_lookup_L. by apply truthy_lookup.
Qed.

(** X8. Two Updates of the same code in a row act as the one Update whose body
    is the second body laid over the first: same answer, same state. *)
Theorem update_compose (cod : string) (body1 body2 : json) (d : db) :
  (put_asignatura cod body2 (put_asignatura cod body1 d).1.2).1 =
  (put_asignatura cod (JObj (own_props body2 ∪ own_props body1)) d).1.
Proof.
  rewrite (put_state cod body1 d), (put_state cod (JObj _) d).
  destruct (truthy (Some (lookup_or_null d _))) eqn:Ht; simpl.
  - rewrite put_state, !lookup_or_null_insert. unfold spread. simpl.
    rewrite insert_insert_eq, (assoc_L (∪)). reflexivity.
  - rewrite put_state, Ht. reflexivity.
Qed.

(** X9. Sending the same Update twice leaves the state the first one left and is
    answered as the first one was. *)
Theorem update_idempotent (cod : string) (req_body : json) (d : db) :
  let first := put_asignatura cod req_body d in
  (put_asignatura cod req_body first.1.2).1 = first.1.
Proof.
  intros first. unfold first. rewrite (put_state cod req_body d).
  destruct (truthy (Some (lookup_or_null d _))) eqn:Ht; simpl.
  - rewrite put_state, !lookup_or_null_insert. unfold spread. simpl.
    rewrite insert_insert_eq, (assoc_L (∪)), (idemp (∪) (own_props req_body)). reflexivity.
  - rewrite put_state, Ht. reflexivity.
Qed.

Lemma get_outcome cod d :
  let key := ASIGNATURA_PREFIX +:+ cod in
  get_asignatura cod d =
    (if truthy (Some (lookup_or_null d key))
     then json_response 200 (lookup_or_null d key) else not_found,
     d, [CGet key]).
Proof.
  intros key. unfold get_asignatura, mbind, kv_mbind, kv_bind, get.
  fold key. cbv zeta beta iota.
  by destruct (truthy (Some (lookup_or_null d key))).
Qed.

(** X10. Whatever the state, a GetOne that follows an Update of the same code
    gives the very answer the Update gave: the merged record with 200, or
    404. *)
Theorem update_then_get_one (cod : string) (req_body : json) (d : db) :
  let updated := put_asignatura cod req_body d in
  (get_asignatura cod updated.1.2).1 = updated.1.
Proof.
  intros updated. unfold updated. rewrite put_state.
  destruct (truthy (Some (lookup_or_null d _))) eqn:Ht; cbn [fst snd].
  - rewrite get_outcome, !lookup_or_null_insert. reflexivity.
  - rewrite get_outcome, Ht. reflexivity.
Qed.



(** ** What a request leaves alone *)

(** X12. A Create, Update or Delete changes at most the key it addresses:
    under every other key the Record Store holds what it held, and every
    other key is a member of the index exactly when it was. *)
Theorem request_touches_one_key (r : request) (d : db) (k : string) :
  request_key r ≠ Some k →
  records (handle r d).1.2 !! k = records d !! k ∧
  (k ∈ index (handle r d).1.2 ↔ k ∈ index d).
Proof.
  intros Hne. destruct r as [id req_body|cod req_body|cod].
  - simpl in *.
    destruct (post_effect id req_body d) as [->|(c & sem & uc & Ha & Hk)];
      [done|].
    assert (Hkey : ASIGNATURA_PREFIX +:+ c ≠ k).
    { intros <-. apply Hne. unfold create_key.
      destruct Ha as (_ & -> & _). reflexivity. }
    rewrite (post_created id req_body c sem uc) by done. simpl.
    rewrite lookup_insert_ne by done.
    rewrite elem_of_union, elem_of_singleton. split; [done|].
    split; [intros [?|?]; [congruence|assumption]|tauto].
  - assert (Hkey : ASIGNATURA_PREFIX +:+ cod ≠ k) by (simpl in Hne; congruence).
    rewrite handle_update, put_state. cbn [fst snd].
    destruct (truthy _); simpl; [|done].
    by rewrite lookup_insert_ne.
  - assert (Hkey : ASIGNATURA_PREFIX +:+ cod ≠ k) by (simpl in Hne; congruence).
    rewrite handle_delete, delete_state. simpl.
    rewrite lookup_delete_ne by done.
    rewrite elem_of_difference, elem_of_singleton. split; [done|].
    split; [tauto|]. intros Hin. split; [done|congruence].
Qed.

Lemma request_touches_one_key_witness :
  records (handle (Delete "CS302") db_two).1.2 !! "asignatura:CS301" =
    records db_two !! "asignatura:CS301" ∧
  ("asignatura:CS301" ∈ index (handle (Delete "CS302") db_two).1.2 ↔
   "asignatura:CS301" ∈ index db_two).
Proof.
  apply (request_touches_one_key (Delete "CS302") db_two "asignatura:CS301").
  discriminate.
Defined.

(** ** The record a Create writes *)

Lemma truthy_Some v : truthy v = true → ∃ x, v = Some x.
Proof. destruct v; [eauto|discriminate]. Qed.

Lemma or_else_Some a b : ∃ x, or_else a b = Some x.
Proof.
  unfold or_else. destruct (truthy a) eqn:Ht; [|eauto].
  by apply truthy_Some.
Qed.

Lemma new_record_shape id req_body sem uc :
  valid req_body →
  ∃ rec,
    new_record id req_body sem uc = JObj rec ∧
    dom rec = record_fields ∧
    rec !! "carrera" = own_props req_body !! "carrera" ∧
    rec !! "cod" = own_props req_body !! "cod" ∧
    rec !! "asig" = own_props req_body !! "asig" ∧
    rec !! "requisitos" = or_else (own_props req_body !! "requisitos") (JArr []).
Proof.
  intros Hv. unfold valid, required_fields in Hv.
  rewrite !Forall_cons in Hv. destruct Hv as (Hca & _ & Hco & Has & _).
  apply truthy_Some in Hca as [ca Hca], Hco as [co Hco], Has as [asg Has].
  destruct (or_else_Some (own_props req_body !! "requisitos") (JArr [])) as [rq Hrq].
  unfold new_record. rewrite Hca, Hco, Has, Hrq.
  eexists. split; [reflexivity|]. unfold object_literal. simpl.
  split; [|by repeat split].
  rewrite !dom_insert_L, dom_empty_L. unfold record_fields.
  apply set_eq. intros k. rewrite !elem_of_union, !elem_of_singleton.
  rewrite elem_of_empty. tauto.
Qed.




(** ** States reached by serving requests *)

Lemma handle_full_records r d :
  all_full_records d → all_full_records (handle r d).1.2.
Proof.
  intros Hd. destruct r as [id req_body|cod req_body|cod].
  - simpl.
    destruct (post_effect id req_body d) as [->|(c & sem & uc & Ha & Hk)];
      [done|].
    rewrite (post_created id req_body c sem uc) by done. intros k v. simpl.
    rewrite lookup_insert_Some. intros [[_ <-]|[_ Hs]]; [|by eapply Hd].
    destruct (new_record_shape id req_body sem uc (proj1 Ha))
      as (rec & -> & Hdom & _).
    exists rec. split; [done|]. by rewrite Hdom.
  - rewrite handle_update, put_state. cbn [fst snd].
    destruct (truthy (Some (lookup_or_null d _))) eqn:Ht; simpl; [|done].
    intros k v. simpl.
    rewrite lookup_insert_Some. intros [[_ <-]|[_ Hs]]; [|by eapply Hd].
    apply truthy_lookup in Ht as [e He].
    destruct (Hd _ _ He) as (o & -> & Ho).
    eexists. split; [reflexivity|].
    unfold lookup_or_null, spread. rewrite He. simpl.
    rewrite dom_union_L. by apply union_subseteq_r'.
  - rewrite handle_delete, delete_state. intros k v. simpl.
    rewrite lookup_delete_Some. intros [_ Hs]. by eapply Hd.
Qed.

Lemma serve_full_records rs d :
  all_full_records d → all_full_records (serve rs d).
Proof.
  revert d. induction rs as [|r rs IH]; intros d Hd; simpl; [done|].
  apply IH, handle_full_records, Hd.
Qed.

(** X14. In every state reached from the empty database by Creates, Updates and
    Deletes, every stored value is an object that still has all seven fields
    of a record, and is stored under a key that begins with the record
    prefix: no Update removes a field. *)
Theorem stored_records_stay_full (rs : list request) (k : string) (v : json) :
  records (serve rs empty_db) !! k = Some v →
  full_record v ∧ String.prefix ASIGNATURA_PREFIX k = true.
Proof.
  intros Hk. split.
  - eapply (serve_full_records rs empty_db); [|exact Hk].
    intros k' v' H. simpl in H. by rewrite lookup_empty in H.
  - apply (serve_prefixed rs empty_db); [|eauto].
    intros k' H. simpl in H. rewrite lookup_empty in H.
    by apply is_Some_None in H.
Qed.

Lemma stored_records_stay_full_witness :
  full_record (new_record "V1StGXR8_Z5jdHi6B-myT" cs301 (Num 3) (Num 4)) ∧
  String.prefix ASIGNATURA_PREFIX "asignatura:CS301" = true.
Proof.
  apply (stored_records_stay_full
           [Create "V1StGXR8_Z5jdHi6B-myT" cs301] "asignatura:CS301"
           (new_record "V1StGXR8_Z5jdHi6B-myT" cs301 (Num 3) (Num 4))).
  vm_compute. reflexivity.
Defined.

(** ** ListAll on reached states *)

Lemma consistent_index_dom d : consistent d → index d = dom (records d).
Proof.
  intros Hc. apply set_eq. intros k. by rewrite (Hc k), elem_of_dom.
Qed.

(** X15. In every state reached from the empty database by Creates, Updates and
    Deletes, ListAll answers with exactly the stored records: one entry per
    record, every stored record among them, each entry an object with all
    seven fields, and so no [null] placeholder. *)
Theorem list_all_reachable (rs : list request) (reply : list string) :
  let d := serve rs empty_db in
  smembers_reply d reply →
  ∃ results,
    (Api.get_asignaturas reply d).1.1 = json_response 200 (JArr results) ∧
    length results = size (records d) ∧
    Forall full_record results ∧
    (∀ k v, records d !! k = Some v → v ∈ results).
Proof.
  intros d Hr.
  assert (Hc : consistent d) by apply serve_consistent, consistent_empty.
  assert (Hf : all_full_records d).
  { apply serve_full_records. intros k v H. simpl in H.
    by rewrite lookup_empty in H. }
  destruct (list_by_index reply d) as (t & -> & _).
  eexists. split; [reflexivity|]. split; [|split].
  - rewrite length_map, (smembers_reply_length d reply Hr).
    rewrite (consistent_index_dom d Hc). apply size_dom.
  - apply Forall_forall. intros v Hv.
    apply list_elem_of_fmap in Hv as (k & -> & Hk).
    apply Hr, Hc in Hk as [v Hv]. unfold lookup_or_null. rewrite Hv. simpl.
    by eapply Hf.
  - intros k v Hk. apply list_elem_of_fmap. exists k. split.
    + unfold lookup_or_null. by rewrite Hk.
    + apply Hr, Hc. eauto.
Qed.

Lemma list_all_reachable_witness :
  ∃ results,
    (Api.get_asignaturas ["asignatura:CS301"; "asignatura:CS302"] db_two).1.1 =
      json_response 200 (JArr results) ∧
    length results = size (records db_two) ∧
    Forall full_record results ∧
    (∀ k v, records db_two !! k = Some v → v ∈ results).
Proof.
  apply (list_all_reachable
           [Create "V1StGXR8_Z5jdHi6B-myT" cs301;
            Create "Uakgb_J5m9g-0JDMbcJqL" cs302]
           ["asignatura:CS301"; "asignatura:CS302"]).
  apply db_two_by_index.
Defined.

(** X16. In every state reached from the empty database by Creates, Updates and
    Deletes, the index-based and the scan-based ListAll answer with the same
    set of records, and with the same records up to order when the scan
    reports no key twice. *)
Theorem enumerations_agree_reachable (rs : list request)
    (by_index by_scan : list string) :
  let d := serve rs empty_db in
  smembers_reply d by_index →
  scan_reply ASIGNATURAS_INDEX_KEY (ScanApi.KEY_PREFIX +:+ "*") d by_scan →
  ∃ l1 l2,
    (Api.get_asignaturas by_index d).1.1 = json_response 200 (JArr l1) ∧
    (ScanApi.get_asignaturas by_scan d).1.1 = json_response 200 (JArr l2) ∧
    (∀ r, r ∈ l1 ↔ r ∈ l2) ∧
    (NoDup by_scan → l1 ≡ₚ l2).
Proof.
  intros d Hi Hsc.
  assert (Hk : ∀ k, k ∈ by_index ↔ k ∈ by_scan).
  { apply (same_keys d); [|apply reachable_scan_sees_records|done|done].
    apply serve_consistent, consistent_empty. }
  destruct (list_by_index by_index d) as (t & -> & _).
  rewrite list_by_scan. eexists _, _.
  split; [reflexivity|]. split; [reflexivity|]. split.
  - intros r. rewrite !list_elem_of_fmap.
    split; intros (k & -> & Hin); exists k; (split; [reflexivity|]); by apply Hk.
  - intros Hnd. apply fmap_Permutation, NoDup_Permutation; [apply Hi|done|done].
Qed.

Lemma enumerations_agree_reachable_witness :
  ∃ l1 l2,
    (Api.get_asignaturas ["asignatura:CS301"; "asignatura:CS302"] db_two).1.1 =
      json_response 200 (JArr l1) ∧
    (ScanApi.get_asignaturas ["asignatura:CS302"; "asignatura:CS301"] db_two).1.1 =
      json_response 200 (JArr l2) ∧
    (∀ r, r ∈ l1 ↔ r ∈ l2) ∧
    (NoDup ["asignatura:CS302"; "asignatura:CS301"] → l1 ≡ₚ l2).
Proof.
  apply (enumerations_agree_reachable
           [Create "V1StGXR8_Z5jdHi6B-myT" cs301;
            Create "Uakgb_J5m9g-0JDMbcJqL" cs302]
           ["asignatura:CS301"; "asignatura:CS302"]
           ["asignatura:CS302"; "asignatura:CS301"]).
  - apply db_two_by_index.
  - apply db_two_by_scan.
Defined.

(** X17. Right after a Create that is accepted (truthy required fields, no
    conversion throws) on a free key, whatever order the index answers in,
    ListAll lists the record the Create answered with. *)
Theorem create_then_list_all (id : string) (req_body : json) (cod : string)
    (sem uc : number) (d : db) (reply : list string) :
  accepted req_body cod sem uc →
  records d !! (ASIGNATURA_PREFIX +:+ cod) = None →
  let d1 := (post_asignaturas id req_body d).1.2 in
  smembers_reply d1 reply →
  ∃ rec results,
    (post_asignaturas id req_body d).1.1 = Sent (json_response 201 rec) ∧
    (Api.get_asignaturas reply d1).1.1 = json_response 200 (JArr results) ∧
    rec ∈ results.
Proof.
  intros Ha Hk d1 Hr. unfold d1 in *.
  rewrite (post_created id req_body cod sem uc) in * by done.
  cbn [fst snd] in *.
  destruct (list_by_index reply
    (Db (<[ASIGNATURA_PREFIX +:+ cod := new_record id req_body sem uc]> (records d))
        ({[ASIGNATURA_PREFIX +:+ cod]} ∪ index d))) as (t & -> & _).
  eexists _, _. split; [reflexivity|]. split; [reflexivity|].
  apply list_elem_of_fmap. exists (ASIGNATURA_PREFIX +:+ cod). split.
  - by rewrite lookup_or_null_insert.
  - apply Hr. simpl. apply elem_of_union_l, elem_of_singleton. reflexivity.
Qed.

Lemma db_cs301_reply : smembers_reply db_cs301 ["asignatura:CS301"].
Proof.
  split; [apply NoDup_singleton|].
  intros k. rewrite list_elem_of_singleton.
  change (index db_cs301) with ({["asignatura:CS301"]} ∪ (∅ : gset string)).
  rewrite elem_of_union, elem_of_singleton, elem_of_empty. tauto.
Qed.

Lemma create_then_list_all_witness :
  ∃ rec results,
    (post_asignaturas "V1StGXR8_Z5jdHi6B-myT" cs301 empty_db).1.1 =
      Sent (json_response 201 rec) ∧
    (Api.get_asignaturas ["asignatura:CS301"]
       (post_asignaturas "V1StGXR8_Z5jdHi6B-myT" cs301 empty_db).1.2).1.1 =
      json_response 200 (JArr results) ∧
    rec ∈ results.
Proof.
  apply (create_then_list_all "V1StGXR8_Z5jdHi6B-myT" cs301 "CS301"
           (Num 3) (Num 4) empty_db ["asignatura:CS301"]).
  - apply cs301_accepted.
  - reflexivity.
  - apply db_cs301_reply.
Defined.

(** X18. Whatever the state, the scan-based ListAll reads exactly the keys that
    hold a value and begin with the record prefix, answering with the value
    held under each; the key of the index set is never among them. *)
Theorem scan_lists_prefixed_keys (d : db) (reply : list string) :
  scan_reply ASIGNATURAS_INDEX_KEY (ScanApi.KEY_PREFIX +:+ "*") d reply →
  (ScanApi.get_asignaturas reply d).1 =
    (json_response 200 (JArr (map (fun k => default JNull (records d !! k)) reply)), d) ∧
  (∀ k, k ∈ reply ↔
        is_Some (records d !! k) ∧ String.prefix ScanApi.KEY_PREFIX k = true) ∧
  ASIGNATURAS_INDEX_KEY ∉ reply.
Proof.
  intros Hs. split; [by rewrite list_by_scan|].
  assert (Hk : ∀ k, k ∈ reply ↔
    is_Some (records d !! k) ∧ String.prefix ScanApi.KEY_PREFIX k = true).
  { intros k. rewrite (Hs k), glob_literal_star by reflexivity.
    unfold keyspace. rewrite elem_of_union, elem_of_dom. split.
    - intros [[Hin|Hin] Hp]; [done|].
      case_decide; [by apply not_elem_of_empty in Hin|].
      apply elem_of_singleton in Hin. subst k. discriminate Hp.
    - intros [Hin Hp]. split; [by left|done]. }
  split; [exact Hk|]. intros Hin. apply Hk in Hin as [_ Hp]. discriminate Hp.
Qed.

Lemma scan_lists_prefixed_keys_witness :
  (ScanApi.get_asignaturas ["asignatura:CS302"; "asignatura:CS301"] db_two).1 =
    (json_response 200
       (JArr (map (fun k => default JNull (records db_two !! k))
                  ["asignatura:CS302"; "asignatura:CS301"])), db_two) ∧
  (∀ k, k ∈ ["asignatura:CS302"; "asignatura:CS301"] ↔
        is_Some (records db_two !! k) ∧ String.prefix ScanApi.KEY_PREFIX k = true) ∧
  ASIGNATURAS_INDEX_KEY ∉ ["asignatura:CS302"; "asignatura:CS301"].
Proof.
  apply (scan_lists_prefixed_keys db_two
           ["asignatura:CS302"; "asignatura:CS301"]).
  apply db_two_by_scan.
Defined.

(** ** The outcomes of a Create, in one table *)

Lemma post_outcome id req_body d :
  (post_asignaturas id req_body d).1 =
    if decide (valid req_body)
    then
      match code_text req_body with
      | None => (Threw TypeError, d)
      | Some cod =>
          let key := ASIGNATURA_PREFIX +:+ cod in
          if decide (is_Some (records d !! key))
          then (Sent (json_response 409 (error_body
                  ("La asignatura con el código " +:+ cod +:+ " ya existe."))), d)
          else
            match parseInt (own_props req_body !! "sem"),
                  parseInt (own_props req_body !! "uc") with
            | Some sem, Some uc =>
                (Sent (json_response 201 (new_record id req_body sem uc)),
                 Db (<[key := new_record id req_body sem uc]> (records d))
                    ({[key]} ∪ index d))
            | _, _ => (Threw TypeError, d)
            end
      end
    else (Sent missing_fields, d).
Proof.
  destruct (decide (valid req_body)) as [Hv|Hv]; [|by rewrite post_invalid].
  destruct (code_text req_body) as [cod|] eqn:Hc; [|by rewrite post_unprintable].
  cbv zeta.
  destruct (decide (is_Some (records d !! (ASIGNATURA_PREFIX +:+ cod)))) as [Hk|Hk];
    [by rewrite (post_conflict id req_body cod)|].
  apply eq_None_not_Some in Hk.
  destruct (parseInt (own_props req_body !! "sem")) as [sem|] eqn:Hs;
    [|rewrite (post_unconvertible id req_body cod); auto].
  destruct (parseInt (own_props req_body !! "uc")) as [uc|] eqn:Hu;
    [|rewrite (post_unconvertible id req_body cod); auto].
  by rewrite (post_created id req_body cod sem uc).
Qed.

(** X19. A Create is answered 400 when a required field is missing or
    falsy; otherwise it throws when its code cannot be converted to a
    string; otherwise it is answered 409 when the key of its code holds a
    record; otherwise it throws when [sem] or [uc] cannot be converted;
    otherwise it is answered 201.  It changes the state in the last case
    only. *)
Theorem create_status (id : string) (req_body : json) (d : db) :
  let out := post_asignaturas id req_body d in
  outcome_status out.1.1 =
    (if decide (valid req_body)
     then
       match code_text req_body with
       | None => None
       | Some cod =>
           if decide (is_Some (records d !! (ASIGNATURA_PREFIX +:+ cod)))
           then Some 409
           else
             match parseInt (own_props req_body !! "sem"),
                   parseInt (own_props req_body !! "uc") with
             | Some _, Some _ => Some 201
             | _, _ => None
             end
       end
     else Some 400) ∧
  (outcome_status out.1.1 ≠ Some 201 → out.1.2 = d).
Proof.
  intros out. unfold out.
  pose proof (post_outcome id req_body d) as H.
  destruct (post_asignaturas id req_body d) as [[o d'] t]. simpl in *.
  repeat case_decide; repeat case_match; simplify_eq; by split.
Qed.

(** ** The scan-based version beside the index-based one *)

Lemma scan_post_outcome id req_body d :
  ScanApi.post_asignaturas id req_body d =
    if decide (valid req_body)
    then
      match code_text req_body with
      | None => (Threw TypeError, d)
      | Some cod =>
          let key := ASIGNATURA_PREFIX +:+ cod in
          if decide (is_Some (records d !! key))
          then (Sent (json_response 409 (error_body
                  ("La asignatura con el código " +:+ cod +:+ " ya existe."))), d)
          else
            match parseInt (own_props req_body !! "sem"),
                  parseInt (own_props req_body !! "uc") with
            | Some sem, Some uc =>
                (Sent (json_response 201 (new_record id req_body sem uc)),
                 Db (<[key := new_record id req_body sem uc]> (records d)) (index d))
            | _, _ => (Threw TypeError, d)
            end
      end
    else (Sent (json_response 400 (error_body
            "Faltan campos obligatorios (carrera, sem, cod, asig, uc).")), d).
Proof.
  unfold ScanApi.post_asignaturas, code_text.
  destruct (decide (valid req_body)) as [Hv|Hv].
  - pose proof Hv as Hb. apply valid_spec in Hb. rewrite Hb.
    destruct (to_string_opt (own_props req_body !! "cod")) as [cod|]; [|done].
    unfold mbind, st_mbind, st_bind, forget.
    change (ScanApi.KEY_PREFIX +:+ cod) with (ASIGNATURA_PREFIX +:+ cod).
    cbv zeta.
    destruct (decide (is_Some (records d !! (ASIGNATURA_PREFIX +:+ cod)))) as [Hk|Hk].
    + by rewrite exists_held.
    + rewrite exists_free by (by apply eq_None_not_Some). cbn [fst snd negb Z.eqb].
      destruct (parseInt (own_props req_body !! "sem")); [|done].
      by destruct (parseInt (own_props req_body !! "uc")).
  - destruct (negb _ || _ || _ || _ || _) eqn:E; [reflexivity|].
    exfalso. apply Hv, valid_spec, E.
Qed.

Lemma scan_put_outcome cod req_body d :
  let key := ASIGNATURA_PREFIX +:+ cod in
  ScanApi.put_asignatura cod req_body d =
    if truthy (Some (lookup_or_null d key))
    then (json_response 200 (JObj (spread (lookup_or_null d key) req_body)),
          Db (<[key := JObj (spread (lookup_or_null d key) req_body)]> (records d))
             (index d))
    else (not_found, d).
Proof.
  intros key.
  unfold ScanApi.put_asignatura, mbind, st_mbind, st_bind, forget, get, set.
  change (ScanApi.KEY_PREFIX +:+ cod) with key. cbn [fst snd].
  by destruct (truthy (Some (lookup_or_null d key))).
Qed.

Lemma scan_delete_outcome cod d :
  let key := ASIGNATURA_PREFIX +:+ cod in
  ScanApi.delete_asignatura cod d =
    (if bool_decide (is_Some (records d !! key))
     then Response 204 None else not_found,
     Db (delete key (records d)) (index d)).
Proof.
  intros key. unfold ScanApi.delete_asignatura, mbind, st_mbind, st_bind, del.
  change (ScanApi.KEY_PREFIX +:+ cod) with key.
  by case_bool_decide.
Qed.

Lemma handle_scan_update cod req_body d :
  handle_scan (Update cod req_body) d =
    (Sent (ScanApi.put_asignatura cod req_body d).1,
     (ScanApi.put_asignatura cod req_body d).2).
Proof.
  simpl. unfold mbind, st_mbind, st_bind.
  by destruct (ScanApi.put_asignatura cod req_body d).
Qed.

Lemma handle_scan_delete cod d :
  handle_scan (Delete cod) d =
    (Sent (ScanApi.delete_asignatura cod d).1,
     (ScanApi.delete_asignatura cod d).2).
Proof.
  simpl. unfold mbind, st_mbind, st_bind.
  by destruct (ScanApi.delete_asignatura cod d).
Qed.

(** X20. On every request and in every state the scan-based handlers end as
    the index-based ones do: with the same status or by throwing alike and,
    unless that status is 400 (the two versions word that message
    differently), with the same response; they leave the Record Store in
    the same state; and they never change the Index Set. *)
Theorem versions_agree (r : request) (d : db) :
  let old := handle_scan r d in
  let new := handle r d in
  outcome_status old.1 = outcome_status new.1.1 ∧
  (outcome_status new.1.1 ≠ Some 400 → old.1 = new.1.1) ∧
  records old.2 = records new.1.2 ∧
  index old.2 = index d.
Proof.
  destruct r as [id req_body|cod req_body|cod].
  - simpl. rewrite scan_post_outcome.
    pose proof (post_outcome id req_body d) as H.
    destruct (post_asignaturas id req_body d) as [[o d'] t]. simpl in *.
    repeat case_decide; repeat case_match; simplify_eq; by repeat split.
  - cbv zeta. rewrite handle_scan_update, handle_update, scan_put_outcome, put_state.
    by destruct (truthy (Some (lookup_or_null d _))).
  - cbv zeta. rewrite handle_scan_delete, handle_delete, scan_delete_outcome,
      delete_outcome.
    by case_bool_decide.
Qed.

Lemma serve_scan_index rs d : index (serve_scan rs d) = index d.
Proof.
  revert d. induction rs as [|r rs IH]; intros d; simpl; [done|].
  rewrite IH. destruct r as [id req_body|cod req_body|cod].
  - simpl. rewrite scan_post_outcome. cbv zeta.
    repeat (case_decide || case_match); done.
  - rewrite handle_scan_update, scan_put_outcome. by destruct (truthy _).
  - by rewrite handle_scan_delete, scan_delete_outcome.
Qed.

(** X21. A record created by the scan-based version, from a request that
    is accepted (truthy required fields, no conversion throws) and on a
    database whose index is empty, is found by the index-based GetOne of
    its code (a route parameter, so not the empty string) but is not listed
    by the index-based ListAll, which answers with the empty sequence. *)
Theorem scan_created_record_unlisted (id : string) (req_body : json)
    (cod : string) (sem uc : number) (d : db) (reply : list string) :
  accepted req_body cod sem uc →
  cod ≠ "" →
  records d !! (ASIGNATURA_PREFIX +:+ cod) = None →
  index d = ∅ →
  let d1 := (ScanApi.post_asignaturas id req_body d).2 in
  smembers_reply d1 reply →
  (ScanApi.post_asignaturas id req_body d).1 =
    Sent (json_response 201 (new_record id req_body sem uc)) ∧
  (get_asignatura cod d1).1.1 =
    json_response 200 (new_record id req_body sem uc) ∧
  (Api.get_asignaturas reply d1).1.1 = json_response 200 (JArr []).
Proof.
  intros (Hv & Hc & Hs & Hu) _ Hk Hi d1 Hr. unfold d1 in *.
  rewrite scan_post_outcome in *. rewrite Hc, Hs, Hu in *. cbv zeta in *.
  rewrite decide_True in * by done.
  rewrite decide_False in * by (rewrite Hk; apply is_Some_None).
  cbn [fst snd] in *. split; [reflexivity|]. split.
  - rewrite get_outcome, lookup_or_null_insert. reflexivity.
  - rewrite (smembers_reply_empty _ _ Hr Hi). reflexivity.
Qed.

Lemma scan_created_record_unlisted_witness :
  (ScanApi.post_asignaturas "V1StGXR8_Z5jdHi6B-myT" cs301 empty_db).1 =
    Sent (json_response 201
            (new_record "V1StGXR8_Z5jdHi6B-myT" cs301 (Num 3) (Num 4))) ∧
  (get_asignatura "CS301"
     (ScanApi.post_asignaturas "V1StGXR8_Z5jdHi6B-myT" cs301 empty_db).2).1.1 =
    json_response 200 (new_record "V1StGXR8_Z5jdHi6B-myT" cs301 (Num 3) (Num 4)) ∧
  (Api.get_asignaturas []
     (ScanApi.post_asignaturas "V1StGXR8_Z5jdHi6B-myT" cs301 empty_db).2).1.1 =
    json_response 200 (JArr []).
Proof.
  apply (scan_created_record_unlisted "V1StGXR8_Z5jdHi6B-myT" cs301 "CS301"
           (Num 3) (Num 4) empty_db []).
  - apply cs301_accepted.
  - discriminate.
  - reflexivity.
  - reflexivity.
  - split; [apply NoDup_nil_2|]. intros k.
    change (index (ScanApi.post_asignaturas "V1StGXR8_Z5jdHi6B-myT" cs301 empty_db).2)
      with (∅ : gset string).
    rewrite elem_of_nil, elem_of_empty. tauto.
Defined.

(** X22. A record deleted by the scan-based version stays a member of the index:
    in a state where the key holds a record and is a member, after that
    Delete the index-based ListAll answers with [null] in the key's place. *)
Theorem scan_delete_leaves_placeholder (cod : string) (d : db)
    (reply : list string) (i : nat) :
  let key := ASIGNATURA_PREFIX +:+ cod in
  let d1 := (ScanApi.delete_asignatura cod d).2 in
  key ∈ index d →
  smembers_reply d1 reply →
  reply !! i = Some key →
  ∃ results,
    (Api.get_asignaturas reply d1).1.1 = json_response 200 (JArr results) ∧
    results !! i = Some JNull.
Proof.
  intros key d1 Hin Hr Hi. unfold d1 in *. rewrite scan_delete_outcome in *.
  cbn [fst snd] in *.
  destruct (list_by_index reply
    (Db (delete (ASIGNATURA_PREFIX +:+ cod) (records d)) (index d)))
    as (t & -> & _).
  eexists. split; [reflexivity|].
  rewrite list_lookup_fmap, Hi. simpl. unfold lookup_or_null. simpl.
  fold key. by rewrite lookup_delete_eq.
Qed.

Lemma scan_delete_leaves_placeholder_witness :
  ∃ results,
    (Api.get_asignaturas ["asignatura:CS301"]
       (ScanApi.delete_asignatura "CS301" db_cs301).2).1.1 =
      json_response 200 (JArr results) ∧
    results !! 0%nat = Some JNull.
Proof.
  apply (scan_delete_leaves_placeholder "CS301" db_cs301 ["asignatura:CS301"] 0).
  - apply (proj2 db_cs301_reply), list_elem_of_here.
  - exact db_cs301_reply.
  - reflexivity.
Defined.

(** X23. After any sequence of requests served by the scan-based version from the
    empty database, the Index Set is still empty, so the index-based ListAll
    answers with the empty sequence whatever records were created. *)
Theorem scan_history_unlisted (rs : list request) (reply : list string) :
  let d := serve_scan rs empty_db in
  smembers_reply d reply →
  index d = ∅ ∧
  (Api.get_asignaturas reply d).1 = (json_response 200 (JArr []), d).
Proof.
  intros d Hr.
  assert (Hi : index d = ∅) by apply serve_scan_index.
  split; [exact Hi|].
  rewrite (smembers_reply_empty _ _ Hr Hi). reflexivity.
Qed.

Lemma scan_history_unlisted_witness :
  index (serve_scan [Create "V1StGXR8_Z5jdHi6B-myT" cs301;
                     Update "CS301" (JObj {[ "uc" := JNum 5 ]})] empty_db) = ∅ ∧
  (Api.get_asignaturas []
     (serve_scan [Create "V1StGXR8_Z5jdHi6B-myT" cs301;
                  Update "CS301" (JObj {[ "uc" := JNum 5 ]})] empty_db)).1 =
    (json_response 200 (JArr []),
     serve_scan [Create "V1StGXR8_Z5jdHi6B-myT" cs301;
                 Update "CS301" (JObj {[ "uc" := JNum 5 ]})] empty_db).
Proof.
  apply (scan_history_unlisted
           [Create "V1StGXR8_Z5jdHi6B-myT" cs301;
            Update "CS301" (JObj {[ "uc" := JNum 5 ]})] []).
  split; [apply NoDup_nil_2|]. intros k.
  rewrite serve_scan_index. simpl.
  rewrite elem_of_nil, elem_of_empty. tauto.
Defined.

(** ** Integers through [parseInt] *)

Lemma digit_val_pretty y :
  (y < 10)%N → digit_val (pretty_N_char y) = Some (Z.of_N y).
Proof.
  intros H.
  assert (y = 0 ∨ y = 1 ∨ y = 2 ∨ y = 3 ∨ y = 4 ∨ y = 5 ∨ y = 6 ∨ y = 7
          ∨ y = 8 ∨ y = 9)%N as Hc by lia.
  repeat destruct Hc as [->|Hc]; try reflexivity. subst. reflexivity.
Qed.

Lemma digits_pretty x s :
  (0 < x)%N →
  digits 10 (pretty_N_go x s) None = digits 10 s (Some (Z.of_N x)).
Proof.
  revert s. induction (N.lt_wf_0 x) as [x _ IH]. intros s Hx.
  rewrite pretty_N_go_step by done.
  assert (Hm : (x `mod` 10 < 10)%N) by (apply N.mod_lt; lia).
  assert (Hd : (x `div` 10 < x)%N) by (apply N.div_lt; lia).
  destruct (decide (x `div` 10 = 0)%N) as [E|E].
  - rewrite E, pretty_N_go_0. cbn [digits].
    rewrite digit_val_pretty by done.
    replace (Z.of_N (x `mod` 10) <? 10) with true by (symmetry; apply Z.ltb_lt; lia).
    simpl default. f_equal. f_equal.
    pose proof (N.div_mod x 10). lia.
  - apply N.neq_0_lt_0 in E. rewrite IH by done. cbn [digits].
    rewrite digit_val_pretty by done.
    replace (Z.of_N (x `mod` 10) <? 10) with true by (symmetry; apply Z.ltb_lt; lia).
    simpl default. f_equal. f_equal.
    pose proof (N.div_mod x 10). lia.
Qed.

Lemma pretty_head x s :
  (0 < x)%N →
  ∃ y rest, (0 < y < 10)%N ∧ pretty_N_go x s = String (pretty_N_char y) rest.
Proof.
  revert s. induction (N.lt_wf_0 x) as [x _ IH]. intros s Hx.
  rewrite pretty_N_go_step by done.
  assert (Hm : (x `mod` 10 < 10)%N) by (apply N.mod_lt; lia).
  assert (Hd : (x `div` 10 < x)%N) by (apply N.div_lt; lia).
  destruct (decide (x `div` 10 = 0)%N) as [E|E].
  - rewrite E, pretty_N_go_0. exists (x `mod` 10)%N, s. split; [|done].
    pose proof (N.div_mod x 10). lia.
  - apply IH; [done|by apply N.neq_0_lt_0].
Qed.

Lemma parseInt_head y rest :
  (0 < y < 10)%N →
  parseInt_string (String (pretty_N_char y) rest) =
    match digits 10 (String (pretty_N_char y) rest) None with
    | None => NaN | Some n => signed_double 1 n end ∧
  parseInt_string (String "-" (String (pretty_N_char y) rest)) =
    match digits 10 (String (pretty_N_char y) rest) None with
    | None => NaN | Some n => signed_double (-1) n end.
Proof.
  intros H.
  assert (y = 1 ∨ y = 2 ∨ y = 3 ∨ y = 4 ∨ y = 5 ∨ y = 6 ∨ y = 7
          ∨ y = 8 ∨ y = 9)%N as Hc by lia.
  repeat destruct Hc as [->|Hc]; subst; split; reflexivity.
Qed.

Lemma round_nat_safe n : 0 <= n < 2 ^ 53 → round_nat n = Some n.
Proof.
  intros H. unfold round_nat.
  replace (n <? 2 ^ 53) with true; [done|].
  symmetry. apply Z.ltb_lt. lia.
Qed.

Lemma parseInt_pretty z :
  safe_integer z → parseInt_string (pretty z) = Num z.
Proof.
  unfold safe_integer. intros Hz.
  destruct z as [|p|p]; [reflexivity| |].
  - change (pretty (Z.pos p)) with (pretty_N_go (N.pos p) "").
    destruct (pretty_head (N.pos p) "") as (y & rest & Hy & E); [lia|].
    pose proof (digits_pretty (N.pos p) "" ltac:(lia)) as Hd.
    rewrite E in *. rewrite (proj1 (parseInt_head y rest Hy)), Hd.
    cbn [digits]. unfold signed_double.
    rewrite round_nat_safe by lia. f_equal; lia.
  - change (pretty (Z.neg p)) with (String "-" (pretty_N_go (N.pos p) "")).
    destruct (pretty_head (N.pos p) "") as (y & rest & Hy & E); [lia|].
    pose proof (digits_pretty (N.pos p) "" ltac:(lia)) as Hd.
    rewrite E in *. rewrite (proj2 (parseInt_head y rest Hy)), Hd.
    cbn [digits]. unfold signed_double.
    rewrite round_nat_safe by lia. f_equal; lia.
Qed.

Lemma number_to_string_safe z :
  safe_integer z → number_to_string z = pretty z.
Proof.
  unfold safe_integer. intros Hz. unfold number_to_string, to_double.
  rewrite round_nat_safe by lia.
  destruct z as [|p|p]; [reflexivity| |].
  - replace (Z.sgn (Z.pos p) * Z.abs (Z.pos p)) with (Z.pos p) by lia.
    change (Z.pos p =? 0) with false. change (Z.pos p <? 0) with false.
    unfold positive_to_string.
    assert (E : (Z.pos p <? 2 ^ 53) = true) by (apply Z.ltb_lt; lia).
    rewrite E. reflexivity.
  - replace (Z.sgn (Z.neg p) * Z.abs (Z.neg p)) with (Z.neg p) by lia.
    change (Z.neg p =? 0) with false. change (Z.neg p <? 0) with true.
    change (- Z.neg p) with (Z.pos p). unfold positive_to_string.
    assert (E : (Z.pos p <? 2 ^ 53) = true) by (apply Z.ltb_lt; lia).
    rewrite E. reflexivity.
Qed.

Lemma parseInt_integer v z :
  integer_input v z → safe_integer z → parseInt (Some v) = Some (Num z).
Proof.
  intros [->| ->] Hz; unfold parseInt; simpl.
  - by rewrite number_to_string_safe, parseInt_pretty.
  - by rewrite parseInt_pretty.
Qed.

(** X24. A Create whose required fields are truthy, whose code converts to
    a string without throwing, whose key is free and whose [sem] and [uc]
    are integers that a double holds exactly, sent as JSON numbers or as
    strings of decimal digits, answers 201 and stores and answers with
    those very integers. *)
Theorem create_keeps_integers (id : string) (req_body sem uc : json)
    (cod : string) (a b : Z) (d : db) :
  valid req_body →
  code_text req_body = Some cod →
  records d !! (ASIGNATURA_PREFIX +:+ cod) = None →
  own_props req_body !! "sem" = Some sem →
  own_props req_body !! "uc" = Some uc →
  integer_input sem a → safe_integer a →
  integer_input uc b → safe_integer b →
  ∃ rec,
    (post_asignaturas id req_body d).1.1 = Sent (json_response 201 (JObj rec)) ∧
    records (post_asignaturas id req_body d).1.2 !! (ASIGNATURA_PREFIX +:+ cod) =
      Some (JObj rec) ∧
    rec !! "sem" = Some (JNum a) ∧
    rec !! "uc" = Some (JNum b).
Proof.
  intros Hv Hc Hk Hsem Huc Ha Hsa Hb Hsb.
  assert (Hacc : accepted req_body cod (Num a) (Num b)).
  { split; [done|]. split; [done|]. rewrite Hsem, Huc.
    split; by apply parseInt_integer. }
  rewrite (post_created id req_body cod (Num a) (Num b)) by done. simpl.
  destruct (new_record_fields id req_body (Num a) (Num b))
    as (rec & -> & _ & Hs & Hu).
  exists rec. split; [reflexivity|]. split; [apply lookup_insert_eq|].
  by split.
Qed.

Lemma create_keeps_integers_witness :
  ∃ rec,
    (post_asignaturas "Uakgb_J5m9g-0JDMbcJqL" cs302 db_cs301).1.1 =
      Sent (json_response 201 (JObj rec)) ∧
    records (post_asignaturas "Uakgb_J5m9g-0JDMbcJqL" cs302 db_cs301).1.2
      !! (ASIGNATURA_PREFIX +:+ "CS302") = Some (JObj rec) ∧
    rec !! "sem" = Some (JNum 4) ∧
    rec !! "uc" = Some (JNum 3).
Proof.
  apply (create_keeps_integers "Uakgb_J5m9g-0JDMbcJqL" cs302
           (JStr "4") (JNum 3) "CS302" 4 3 db_cs301).
  - apply valid_spec. reflexivity.
  - reflexivity.
  - reflexivity.
  - reflexivity.
  - reflexivity.
  - right. reflexivity.
  - unfold safe_integer. lia.
  - left. reflexivity.
  - unfold safe_integer. lia.
Defined.

(** ** Requests on a key that holds nothing *)

(** X25. On a key that holds nothing, GetOne and Update both answer 404, send the
    one read command and leave the state as it was, whatever the body of the
    Update. *)
Theorem missing_key_not_found (cod : string) (req_body : json) (d : db) :
  let key := ASIGNATURA_PREFIX +:+ cod in
  records d !! key = None →
  get_asignatura cod d = (not_found, d, [CGet key]) ∧
  put_asignatura cod req_body d = (not_found, d, [CGet key]) ∧
  status not_found = 404.
Proof.
  intros key Hk.
  assert (Ht : truthy (Some (lookup_or_null d key)) = false)
    by (unfold lookup_or_null; by rewrite Hk).
  split; [|split; [|reflexivity]].
  - rewrite get_outcome. fold key. by rewrite Ht.
  - by apply put_missing.
Qed.

Lemma missing_key_not_found_witness :
  get_asignatura "CS302" db_cs301 = (not_found, db_cs301, [CGet "asignatura:CS302"]) ∧
  put_asignatura "CS302" (JObj {[ "uc" := JNum 5 ]}) db_cs301 =
    (not_found, db_cs301, [CGet "asignatura:CS302"]) ∧
  status not_found = 404.
Proof.
  apply (missing_key_not_found "CS302" (JObj {[ "uc" := JNum 5 ]}) db_cs301).
  reflexivity.
Defined.

(** X26. The GetOne of the scan-based version answers as the index-based one does
    and, like it, changes nothing. *)
Theorem get_one_versions_agree (cod : string) (d : db) :
  ScanApi.get_asignatura cod d = ((get_asignatura cod d).1.1, d) ∧
  (get_asignatura cod d).1.2 = d.
Proof.
  rewrite get_outcome. split; [|reflexivity].
  unfold ScanApi.get_asignatura, mbind, st_mbind, st_bind, forget, get.
  change (ScanApi.KEY_PREFIX +:+ cod) with (ASIGNATURA_PREFIX +:+ cod).
  cbn [fst snd].
  by destruct (truthy (Some (lookup_or_null d (ASIGNATURA_PREFIX +:+ cod)))).
Qed.

(** ** The commands that write *)

(** X27. The index is written only inside a transaction that also writes
    the record under the same key: of the commands a Create, Update or
    Delete sends, a transaction is either the record write with the index
    add or the record removal with the index removal, both on the key the
    request addresses, and the only other write is the plain set of an
    Update on that key. *)
Theorem writes_are_paired (r : request) (d : db) (c : cmd) :
  c ∈ (handle r d).2 →
  match c with
  | CExec ops =>
      ∃ key, request_key r = Some key ∧
        ((∃ v, ops = [TxSet key v; TxSadd ASIGNATURAS_INDEX_KEY key]) ∨
         ops = [TxDel key; TxSrem ASIGNATURAS_INDEX_KEY key])
  | CSet key _ => request_key r = Some key ∧ ∃ cod body, r = Update cod body
  | _ => True
  end.
Proof.
  destruct r as [id req_body|cod req_body|cod].
  - simpl.
    destruct (decide (valid req_body)) as [Hv|Hv];
      [|rewrite post_invalid by done; simpl; by intros ?%elem_of_nil].
    destruct (code_text req_body) as [ct|] eqn:Hc;
      [|rewrite post_unprintable by done; simpl; by intros ?%elem_of_nil].
    destruct (records d !! (ASIGNATURA_PREFIX +:+ ct)) eqn:Hk.
    { rewrite (post_conflict id req_body ct) by eauto.
      simpl. intros ->%list_elem_of_singleton. done. }
    destruct (parseInt (own_props req_body !! "sem")) as [sem|] eqn:Hs;
      [|rewrite (post_unconvertible id req_body ct) by auto;
        simpl; intros ->%list_elem_of_singleton; done].
    destruct (parseInt (own_props req_body !! "uc")) as [uc|] eqn:Hu;
      [|rewrite (post_unconvertible id req_body ct) by auto;
        simpl; intros ->%list_elem_of_singleton; done].
    rewrite (post_created id req_body ct sem uc) by done. simpl.
    rewrite elem_of_cons, list_elem_of_singleton. intros [->| ->]; [done|].
    exists (ASIGNATURA_PREFIX +:+ ct). unfold create_key. rewrite Hc.
    split; [reflexivity|]. left. eauto.
  - rewrite handle_update, put_state. cbn [fst snd].
    destruct (truthy _); simpl.
    + rewrite elem_of_cons, list_elem_of_singleton. intros [->| ->]; [done|].
      split; eauto.
    + intros ->%list_elem_of_singleton. done.
  - rewrite handle_delete, delete_outcome. simpl.
    intros ->%list_elem_of_singleton. eexists. split; [reflexivity|]. by right.
Qed.

Lemma writes_are_paired_witness :
  ∃ key, request_key (Create "V1StGXR8_Z5jdHi6B-myT" cs301) = Some key ∧
    ((∃ v, [TxSet "asignatura:CS301"
              (new_record "V1StGXR8_Z5jdHi6B-myT" cs301 (Num 3) (Num 4));
            TxSadd ASIGNATURAS_INDEX_KEY "asignatura:CS301"] =
           [TxSet key v; TxSadd ASIGNATURAS_INDEX_KEY key]) ∨
     [TxSet "asignatura:CS301"
        (new_record "V1StGXR8_Z5jdHi6B-myT" cs301 (Num 3) (Num 4));
      TxSadd ASIGNATURAS_INDEX_KEY "asignatura:CS301"] =
       [TxDel key; TxSrem ASIGNATURAS_INDEX_KEY key]).
Proof.
  apply (writes_are_paired (Create "V1StGXR8_Z5jdHi6B-myT" cs301) empty_db
           (CExec [TxSet "asignatura:CS301"
                     (new_record "V1StGXR8_Z5jdHi6B-myT" cs301 (Num 3) (Num 4));
                   TxSadd ASIGNATURAS_INDEX_KEY "asignatura:CS301"])).
  apply list_elem_of_further, list_elem_of_here.
Defined.

(** ** A Create that throws *)

(** X28. A Create whose required fields are truthy throws a TypeError,
    without sending a response and without writing, when its [cod] cannot
    be converted to a string (as an object with a [toString] field of its
    own cannot), and also when its key is free and its [sem] or [uc] cannot
    be converted; the state is left as it was. *)
Theorem create_throws (id : string) (req_body : json) (d : db) :
  valid req_body →
  code_text req_body = None
  ∨ (∃ cod, code_text req_body = Some cod ∧
            records d !! (ASIGNATURA_PREFIX +:+ cod) = None ∧
            (parseInt (own_props req_body !! "sem") = None
             ∨ parseInt (own_props req_body !! "uc") = None)) →
  ∃ t, post_asignaturas id req_body d = (Threw TypeError, d, t) ∧ no_writes t.
Proof.
  intros Hv [Hc|(cod & Hc & Hk & Hp)].
  - rewrite post_unprintable by done. eexists. split; [reflexivity|constructor].
  - rewrite (post_unconvertible id req_body cod) by done.
    eexists. split; [reflexivity|]. by repeat constructor.
Qed.

Lemma create_throws_witness :
  ∃ t, post_asignaturas "Uakgb_J5m9g-0JDMbcJqL" cod_unprintable db_cs301 =
         (Threw TypeError, db_cs301, t) ∧ no_writes t.
Proof.
  apply (create_throws "Uakgb_J5m9g-0JDMbcJqL" cod_unprintable db_cs301).
  - apply valid_spec. reflexivity.
  - left. reflexivity.
Defined.
